(** * Instaparser Node.js SDK: the streaming summary accumulator and the
      result objects, embedded from [src/client.ts], [src/article.ts],
      [src/pdf.ts] and [src/summary.ts].

    JavaScript strings are sequences of UTF-16 code units; a [Buffer] is a
    sequence of bytes.  The library functions the client calls
    ([String.prototype.split], [trim], [startsWith], [Buffer.toString],
    [JSON.parse], the settle-once behaviour of a [Promise]) are modelled
    next to the code that calls them. *)

From Stdlib Require Import Ascii String NArith PeanoNat Bool DecimalString List Lia.
Import ListNotations.

Set Implicit Arguments.

(* ================================================================== *)
(** ** JavaScript strings *)
(* ================================================================== *)

Module JS.

(** A string value: its UTF-16 code units. *)
Definition jsstring := list N.

(** A source-level string literal (ASCII only in this code base). *)
Definition lit (s : string) : jsstring :=
  map N_of_ascii (list_ascii_of_string s).

(** [ToBoolean] on a string: only the empty string is falsy. *)
Definition truthy (s : jsstring) : bool :=
  match s with
  | [] => false
  | _ :: _ => true
  end.

(** [WhiteSpace] and [LineTerminator] code units, the ones [trim] strips. *)
Definition isWhiteSpace (c : N) : bool :=
  ((0x09 <=? c) && (c <=? 0x0D)
   || (c =? 0x20) || (c =? 0xA0) || (c =? 0x1680)
   || (0x2000 <=? c) && (c <=? 0x200A)
   || (c =? 0x2028) || (c =? 0x2029) || (c =? 0x202F)
   || (c =? 0x205F) || (c =? 0x3000) || (c =? 0xFEFF))%N.

Fixpoint trimStart (s : jsstring) : jsstring :=
  match s with
  | [] => []
  | c :: s' => if isWhiteSpace c then trimStart s' else s
  end.

Definition trimEnd (s : jsstring) : jsstring :=
  rev (trimStart (rev s)).

(** [s.trim()] *)
Definition trim (s : jsstring) : jsstring :=
  trimEnd (trimStart s).

(** [s.startsWith(p)] *)
Fixpoint startsWith (s p : jsstring) : bool :=
  match p, s with
  | [], _ => true
  | _ :: _, [] => false
  | a :: p', b :: s' => (a =? b)%N && startsWith s' p'
  end.

(** The scan of [String.prototype.split] for a non-empty separator: [cur]
    is the segment being collected, [skip] the number of code units of a
    matched separator still to be passed over. *)
Fixpoint splitFrom (sep : jsstring) (skip : nat) (cur s : jsstring)
  : list jsstring :=
  match s with
  | [] => [cur]
  | c :: s' =>
      match skip with
      | S k => splitFrom sep k cur s'
      | O =>
          if startsWith s sep
          then cur :: splitFrom sep (List.length sep - 1) [] s'
          else splitFrom sep 0 (cur ++ [c]) s'
      end
  end.

(** All the segments, before the limit is applied.  An empty separator
    splits between every two code units. *)
Definition splitAll (s sep : jsstring) : list jsstring :=
  match sep with
  | [] => map (fun c => [c]) s
  | _ :: _ => splitFrom sep 0 [] s
  end.

(** [s.split(sep, limit)]: the array holds at most [limit] segments, the
    rest of the string is dropped; [None] is an omitted limit. *)
Definition split (s sep : jsstring) (limit : option nat) : list jsstring :=
  match limit with
  | None => splitAll s sep
  | Some n => firstn n (splitAll s sep)
  end.

(** [a.pop()]: the array without its last element, and that element
    ([undefined] on an empty array). *)
Definition pop (A : Type) (a : list A) : list A * option A :=
  match rev a with
  | [] => ([], None)
  | x :: r => (rev r, Some x)
  end.

(** The literal ['\n']. *)
Definition LF : jsstring := [0x0A%N].

(** [x || ''] for [x] a string or [undefined]. *)
Definition orEmpty (x : option jsstring) : jsstring :=
  match x with
  | Some s => if truthy s then s else []
  | None => []
  end.

End JS.

(* ================================================================== *)
(** ** [Buffer.prototype.toString('utf-8')] *)
(* ================================================================== *)

Module Utf8.
Import JS.

(** A Buffer. *)
Definition Buffer := list Byte.byte.

(** A multi-byte sequence in progress: the code point bits read so far,
    the continuation bytes still expected, and the range allowed for the
    next byte. *)
Record pending := {
  code_point : N;
  bytes_needed : nat;
  lower : N;
  upper : N
}.

Definition REPLACEMENT : N := 0xFFFD.

(** The code units of a code point: itself in the basic plane, a
    surrogate pair above it. *)
Definition codeUnits (cp : N) : jsstring :=
  if (cp <? 0x10000)%N then [cp]
  else [(0xD800 + N.shiftr (cp - 0x10000) 10)%N;
        (0xDC00 + N.land (cp - 0x10000) 0x3FF)%N].

(** A byte met with no sequence in progress. *)
Definition lead (b : N) : option pending * jsstring :=
  if (b <=? 0x7F)%N then (None, [b])
  else if (0xC2 <=? b)%N && (b <=? 0xDF)%N then
    (Some {| code_point := N.land b 0x1F; bytes_needed := 1;
             lower := 0x80; upper := 0xBF |}, [])
  else if (0xE0 <=? b)%N && (b <=? 0xEF)%N then
    (Some {| code_point := N.land b 0xF; bytes_needed := 2;
             lower := if (b =? 0xE0)%N then 0xA0 else 0x80;
             upper := if (b =? 0xED)%N then 0x9F else 0xBF |}, [])
  else if (0xF0 <=? b)%N && (b <=? 0xF4)%N then
    (Some {| code_point := N.land b 0x7; bytes_needed := 3;
             lower := if (b =? 0xF0)%N then 0x90 else 0x80;
             upper := if (b =? 0xF4)%N then 0x8F else 0xBF |}, [])
  else (None, [REPLACEMENT]).

(** One byte of input.  A byte that cannot continue the sequence in
    progress ends it with U+FFFD and is then read again as a first byte. *)
Definition step (st : option pending) (b : N) : option pending * jsstring :=
  match st with
  | None => lead b
  | Some p =>
      if (lower p <=? b)%N && (b <=? upper p)%N then
        let cp := N.lor (N.shiftl (code_point p) 6) (N.land b 0x3F) in
        match bytes_needed p with
        | S (S k) =>
            (Some {| code_point := cp; bytes_needed := S k;
                     lower := 0x80; upper := 0xBF |}, [])
        | _ => (None, codeUnits cp)
        end
      else
        let (st', out) := lead b in (st', REPLACEMENT :: out)
  end.

(** The decoder run over a byte sequence from state [st]: the state it
    ends in and the code units produced. *)
Fixpoint run (st : option pending) (bs : Buffer) : option pending * jsstring :=
  match bs with
  | [] => (st, [])
  | b :: bs' =>
      let (st1, out1) := step st (Byte.to_N b) in
      let (st2, out2) := run st1 bs' in
      (st2, out1 ++ out2)
  end.

(** End of input: a sequence left unfinished yields one U+FFFD. *)
Definition flush (st : option pending) : jsstring :=
  match st with
  | None => []
  | Some _ => [REPLACEMENT]
  end.

(** [chunk.toString('utf-8')]: every call decodes its buffer from a fresh
    state and to the end. *)
Definition toString (chunk : Buffer) : jsstring :=
  let (st, out) := run None chunk in out ++ flush st.

(** The buffer ends between two characters: no sequence is in progress at
    its end. *)
Definition endsOnBoundary (chunk : Buffer) : bool :=
  match fst (run None chunk) with
  | None => true
  | Some _ => false
  end.

(** The bytes of an ASCII literal. *)
Definition bytes (s : string) : Buffer := list_byte_of_string s.

End Utf8.

(* ================================================================== *)
(** ** [JSON.parse] *)
(* ================================================================== *)

Module JSON.
Import JS.

(** A parsed value.  A number keeps the text it was written with. *)
Unset Elimination Schemes.
Inductive value :=
| Null
| Bool (b : bool)
| Number (lexeme : jsstring)
| Str (s : jsstring)
| Arr (items : list value)
| Obj (members : list (jsstring * value)).
Set Elimination Schemes.

(** [JSON.parse] belongs to the runtime, not to this repository: the
    client is modelled over any parser.  [None] is a thrown
    [SyntaxError]. *)
Class Parser := { parse : jsstring -> option value }.

(** The value of an array of strings. *)
Definition strings (l : list jsstring) : value := Arr (map Str l).

(** The white space of the JSON grammar. *)
Definition isJsonSpace (c : N) : bool :=
  ((c =? 0x20) || (c =? 0x09) || (c =? 0x0A) || (c =? 0x0D))%N.

Fixpoint skipSpace (s : jsstring) : jsstring :=
  match s with
  | [] => []
  | c :: s' => if isJsonSpace c then skipSpace s' else s
  end.

(** The body of a string literal up to its closing quote, and the text
    after it. *)
Fixpoint stringBody (acc s : jsstring) : option (jsstring * jsstring) :=
  match s with
  | [] => None
  | c :: s' =>
      if (c =? 0x22)%N then Some (acc, s')
      else if ((c =? 0x5C) || (c <? 0x20))%N then None
      else stringBody (acc ++ [c]) s'
  end.

(** The elements after the opening bracket, an element being due. *)
Fixpoint elements (fuel : nat) (acc : list jsstring) (s : jsstring)
  : option (list jsstring) :=
  match fuel with
  | O => None
  | S fuel' =>
      match skipSpace s with
      | 0x22%N :: s1 =>
          match stringBody [] s1 with
          | Some (str, s2) =>
              match skipSpace s2 with
              | 0x2C%N :: s3 => elements fuel' (acc ++ [str]) s3
              | 0x5D%N :: s3 =>
                  match skipSpace s3 with
                  | [] => Some (acc ++ [str])
                  | _ :: _ => None
                  end
              | _ => None
              end
          | None => None
          end
      | _ => None
      end
  end.

(** A parser to run the client on examples.  It reads arrays of string
    literals without escape sequences, as [JSON.parse] does, and rejects
    every other text (where [JSON.parse] accepts more). *)
Definition parseStringArray (s : jsstring) : option value :=
  match skipSpace s with
  | 0x5B%N :: s1 =>
      match skipSpace s1 with
      | 0x5D%N :: s2 =>
          match skipSpace s2 with
          | [] => Some (strings [])
          | _ :: _ => None
          end
      | _ => option_map strings (elements (List.length s) [] s1)
      end
  | _ => None
  end.

Definition stringArrays : Parser := {| parse := parseStringArray |}.

End JSON.

(* ================================================================== *)
(** ** [src/summary.ts] and [src/exceptions.ts] *)
(* ================================================================== *)

Module Summary.
Import JS.

(** [new Summary(keySentences, overview)].  [keySentences] is declared
    [string[]] but receives whatever [JSON.parse] returned. *)
Record Summary := {
  keySentences : JSON.value;
  overview : jsstring
}.

(** [toString()] *)
Definition toString (s : Summary) : jsstring := overview s.

(** The [overviewPreview] of the inspection method: the overview, cut to
    its first 50 code units and followed by three dots when it is longer
    ([substring(0, 50) + '...']). *)
Definition overviewPreview (s : Summary) : jsstring :=
  if Nat.ltb 50 (List.length (overview s))
  then firstn 50 (overview s) ++ lit "..."
  else overview s.

End Summary.

Module Exceptions.
Import JS.

(** [new InstaparserAPIError(message, statusCode, response)]: the third
    argument, when the client passes one, is the transport's [Error],
    kept here by its message. *)
Record InstaparserAPIError := {
  message : jsstring;
  statusCode : option N;
  response : option jsstring
}.

End Exceptions.

(* ================================================================== *)
(** ** [src/article.ts] and [src/pdf.ts] *)
(* ================================================================== *)

(** [x ?? d] *)
Definition nullish (A : Type) (x : option A) (d : A) : A :=
  match x with
  | Some v => v
  | None => d
  end.

(** [a || b] for two optional strings: [a] unless it is [undefined] or
    empty. *)
Definition orElse (a b : option JS.jsstring) : option JS.jsstring :=
  match a with
  | Some s => if JS.truthy s then a else b
  | None => b
  end.

Module ArticleData.
Import JS.

(** The [ArticleData] interface; [number] is the type of JavaScript
    numbers, which the constructors only copy. *)
Record ArticleData (number : Type) := {
  url : option jsstring;
  title : option jsstring;
  site_name : option jsstring;
  author : option jsstring;
  date : option number;
  description : option jsstring;
  thumbnail : option jsstring;
  words : option number;
  is_rtl : option bool;
  images : option (list jsstring);
  videos : option (list jsstring);
  html : option jsstring;
  text : option jsstring
}.

End ArticleData.

Module Article.
Import JS.

Record Article (number : Type) := {
  url : option jsstring;
  title : option jsstring;
  siteName : option jsstring;
  author : option jsstring;
  date : option number;
  description : option jsstring;
  thumbnail : option jsstring;
  words : number;
  isRtl : bool;
  images : list jsstring;
  videos : list jsstring;
  html : option jsstring;
  text : option jsstring;
  body : option jsstring
}.

Section Constructors.
Variable number : Type.
Variable zero : number.

(** [new Article(data)] *)
Definition new (data : ArticleData.ArticleData number) : Article number :=
  {| url := ArticleData.url data;
     title := ArticleData.title data;
     siteName := ArticleData.site_name data;
     author := ArticleData.author data;
     date := ArticleData.date data;
     description := ArticleData.description data;
     thumbnail := ArticleData.thumbnail data;
     words := nullish (ArticleData.words data) zero;
     isRtl := nullish (ArticleData.is_rtl data) false;
     images := nullish (ArticleData.images data) [];
     videos := nullish (ArticleData.videos data) [];
     html := ArticleData.html data;
     text := ArticleData.text data;
     body := orElse (ArticleData.html data) (ArticleData.text data) |}.

(** [{ ...data, is_rtl: false, videos: [] }] *)
Definition pdfData (data : ArticleData.ArticleData number)
  : ArticleData.ArticleData number :=
  {| ArticleData.url := ArticleData.url data;
     ArticleData.title := ArticleData.title data;
     ArticleData.site_name := ArticleData.site_name data;
     ArticleData.author := ArticleData.author data;
     ArticleData.date := ArticleData.date data;
     ArticleData.description := ArticleData.description data;
     ArticleData.thumbnail := ArticleData.thumbnail data;
     ArticleData.words := ArticleData.words data;
     ArticleData.is_rtl := Some false;
     ArticleData.images := ArticleData.images data;
     ArticleData.videos := Some [];
     ArticleData.html := ArticleData.html data;
     ArticleData.text := ArticleData.text data |}.

(** [new PDF(data)]: [super(pdfData)]. *)
Definition PDF (data : ArticleData.ArticleData number) : Article number :=
  new (pdfData data).

End Constructors.

(** [toString()]: [this.body || ''] *)
Definition toString (number : Type) (a : Article number) : jsstring :=
  orEmpty (body a).

End Article.

(* ================================================================== *)
(** ** [InstaparserClient.summary], the streaming branch *)
(* ================================================================== *)

Module Stream.
Import JS.
Export Summary Exceptions.

(** How the promise returned by [summary] was settled. *)
Inductive settlement :=
| Resolved (s : Summary)
| Rejected (e : InstaparserAPIError).

(** The variables of the promise executor ([keySentences], [overview],
    [buffer]), the lines handed to [streamCallback] so far, oldest first,
    and the promise, [None] while it is pending. *)
Record state := {
  keySentences : JSON.value;
  overview : jsstring;
  buffer : jsstring;
  delivered : list jsstring;
  promise : option settlement
}.

(** [let keySentences = []; let overview = ''; let buffer = '';] *)
Definition initial : state :=
  {| keySentences := JSON.strings [];
     overview := [];
     buffer := [];
     delivered := [];
     promise := None |}.

Definition setKeySentences (v : JSON.value) (st : state) : state :=
  {| keySentences := v; overview := overview st; buffer := buffer st;
     delivered := delivered st; promise := promise st |}.

Definition appendOverview (s : jsstring) (st : state) : state :=
  {| keySentences := keySentences st; overview := overview st ++ s;
     buffer := buffer st; delivered := delivered st;
     promise := promise st |}.

Definition setBuffer (s : jsstring) (st : state) : state :=
  {| keySentences := keySentences st; overview := overview st;
     buffer := s; delivered := delivered st; promise := promise st |}.

(** [streamCallback(line)] *)
Definition streamCallback (line : jsstring) (st : state) : state :=
  {| keySentences := keySentences st; overview := overview st;
     buffer := buffer st; delivered := delivered st ++ [line];
     promise := promise st |}.

(** [resolve(v)] and [reject(e)]: only the first call settles the
    promise. *)
Definition settle (o : settlement) (st : state) : state :=
  match promise st with
  | Some _ => st
  | None =>
      {| keySentences := keySentences st; overview := overview st;
         buffer := buffer st; delivered := delivered st;
         promise := Some o |}
  end.

Definition resolve (s : Summary) : state -> state := settle (Resolved s).
Definition reject (e : InstaparserAPIError) : state -> state :=
  settle (Rejected e).

(** [new InstaparserAPIError('Unable to generate key sentences', 412)] *)
Definition unableToGenerate : InstaparserAPIError :=
  {| message := lit "Unable to generate key sentences";
     statusCode := Some 412%N;
     response := None |}.

(** [new InstaparserAPIError(`Stream error: ${error.message}`, undefined,
    error)] *)
Definition streamError (error : jsstring) : InstaparserAPIError :=
  {| message := lit "Stream error: " ++ error;
     statusCode := None;
     response := Some error |}.

Section Handlers.
Context {json : JSON.Parser}.

(** [line.split(':', 1)[1]?.trim()] *)
Definition jsonStrOf (line : jsstring) : option jsstring :=
  option_map trim (nth_error (split line (lit ":") (Some 1)) 1).

(** [line.split(': ', 2)[1]] *)
Definition deltaContentOf (line : jsstring) : option jsstring :=
  nth_error (split line (lit ": ") (Some 2)) 1.

(** The [else if (line.startsWith('delta:'))] branch, the same in both
    handlers. *)
Definition deltaBranch (line : jsstring) (st : state) : state :=
  if startsWith line (lit "delta:") then
    match deltaContentOf line with
    | Some deltaContent =>
        if truthy deltaContent then appendOverview deltaContent st else st
    | None => st
    end
  else st.

(** The body of [for (const line of lines)] in the ['data'] handler.  The
    boolean is [false] when the body left the handler through [return]. *)
Definition dataLine (st : state) (line : jsstring) : state * bool :=
  if truthy (trim line) then
    let st := streamCallback line st in
    if startsWith line (lit "key_sentences:") then
      match jsonStrOf line with
      | Some jsonStr =>
          if truthy jsonStr then
            match JSON.parse jsonStr with
            | Some v => (setKeySentences v st, true)
            | None => (reject unableToGenerate st, false)
            end
          else (st, true)
      | None => (st, true)
      end
    else (deltaBranch line st, true)
  else (st, true).

(** [for (const line of lines) { ... }] *)
Fixpoint forLines (lines : list jsstring) (st : state) : state :=
  match lines with
  | [] => st
  | line :: rest =>
      let (st', continue) := dataLine st line in
      if continue then forLines rest st' else st'
  end.

(** The first three statements of the ['data'] handler on the decoded
    chunk: the complete lines and the new buffer. *)
Definition takeLines (buf text : jsstring) : list jsstring * jsstring :=
  let buffer := buf ++ text in
  let (lines, last) := pop (split buffer LF None) in
  (lines, orEmpty last).

(** The ['data'] handler after the chunk is decoded. *)
Definition onText (st : state) (text : jsstring) : state :=
  let (lines, buffer) := takeLines (buffer st) text in
  forLines lines (setBuffer buffer st).

(** [response.data.on('data', (chunk) => { ... })] *)
Definition onData (st : state) (chunk : Utf8.Buffer) : state :=
  onText st (Utf8.toString chunk).

(** The body of [if (buffer.trim())] in the ['end'] handler: a parse
    error is caught and ignored. *)
Definition endLine (st : state) : state :=
  let line := buffer st in
  if truthy (trim line) then
    let st := streamCallback line st in
    if startsWith line (lit "key_sentences:") then
      match jsonStrOf line with
      | Some jsonStr =>
          if truthy jsonStr then
            match JSON.parse jsonStr with
            | Some v => setKeySentences v st
            | None => st
            end
          else st
      | None => st
      end
    else deltaBranch line st
  else st.

(** [response.data.on('end', () => { ... })] *)
Definition onEnd (st : state) : state :=
  let st := endLine st in
  resolve {| Summary.keySentences := keySentences st;
             Summary.overview := overview st |} st.

(** [response.data.on('error', (error) => { ... })] *)
Definition onError (st : state) (error : jsstring) : state :=
  reject (streamError error) st.

(** The ['data'] events of a response, in order. *)
Definition feed (st : state) (chunks : list Utf8.Buffer) : state :=
  fold_left onData chunks st.

(** A response that delivers [chunks] and then ends. *)
Definition finish (chunks : list Utf8.Buffer) : state :=
  onEnd (feed initial chunks).

(** What the caller of [summary] gets for such a response. *)
Definition summary (chunks : list Utf8.Buffer) : option settlement :=
  promise (finish chunks).

(** The lines taken out of the buffer by the ['data'] handlers for
    [chunks], started in [st]. *)
Fixpoint extracted (st : state) (chunks : list Utf8.Buffer)
  : list jsstring :=
  match chunks with
  | [] => []
  | chunk :: rest =>
      fst (takeLines (buffer st) (Utf8.toString chunk))
        ++ extracted (onData st chunk) rest
  end.

End Handlers.

End Stream.

(* ================================================================== *)
(** ** [InstaparserClient]: responses, errors and requests *)
(* ================================================================== *)

Module Client.
Import JS.

(** The [name] an error of [src/exceptions.ts] is constructed with. *)
Inductive errorName :=
| InstaparserError
| InstaparserAPIError
| InstaparserAuthenticationError
| InstaparserRateLimitError
| InstaparserValidationError.

(** What the client reads of an [AxiosResponse<T>]. *)
Record AxiosResponse (T : Type) := {
  status : N;
  data : T
}.

(** An [InstaparserAPIError] or one of its subclasses. *)
Record error (T : Type) := {
  name : errorName;
  message : jsstring;
  statusCode : option N;
  response : option (AxiosResponse T)
}.

(** What the client reads of an error thrown by axios. *)
Record AxiosError (T : Type) := {
  axiosMessage : jsstring;
  axiosResponse : option (AxiosResponse T)
}.

(** A call that returns or throws. *)
Inductive result (A E : Type) :=
| Return (a : A)
| Throw (e : E).
Arguments Return {A E} a.
Arguments Throw {A E} e.

(** What a method of the client throws: an error of its own, with the
    response type [T] it was built on, or the error of axios, passed on. *)
Inductive thrown (T S : Type) :=
| Insta (e : error T)
| Axios (e : AxiosError S).
Arguments Insta {T S} e.
Arguments Axios {T S} e.

(** [a || b] on strings. *)
Definition orString (a b : jsstring) : jsstring :=
  if truthy a then a else b.

(** [a === b] on strings. *)
Definition strictEq (a b : jsstring) : bool :=
  if list_eq_dec N.eq_dec a b then true else false.

(** [`${n}`] for a status code, a natural number. *)
Definition decimal (n : N) : jsstring :=
  lit (NilEmpty.string_of_uint (N.to_uint n)).

(** [`API request failed with status ${statusCode}`] *)
Definition requestFailed (statusCode : N) : jsstring :=
  lit "API request failed with status " ++ decimal statusCode.

Section HandleResponse.
Variable T : Type.

(** The test [errorData && typeof errorData === 'object' && 'reason' in
    errorData] and the member [errorData.reason] it guards, a string in
    the error bodies of the API.  The [try] around it cannot throw on
    plain data, so its [catch] is left out. *)
Variable reasonOf : T -> option jsstring.

(** [handleResponse(response)] *)
Definition handleResponse (response : AxiosResponse T)
  : result T (error T) :=
  let statusCode := status response in
  if (statusCode =? 200)%N then Return (data response)
  else
    let errorMessage :=
      match reasonOf (data response) with
      | Some reason => reason
      | None => requestFailed statusCode
      end in
    if (statusCode =? 401)%N then
      Throw {| name := InstaparserAuthenticationError;
               message := orString errorMessage (lit "Invalid API key");
               statusCode := Some statusCode;
               response := Some response |}
    else if (statusCode =? 403)%N then
      Throw {| name := InstaparserAPIError;
               message := orString errorMessage (lit "Account suspended");
               statusCode := Some statusCode;
               response := Some response |}
    else if (statusCode =? 409)%N then
      Throw {| name := InstaparserAPIError;
               message :=
                 orString errorMessage (lit "Exceeded monthly API calls");
               statusCode := Some statusCode;
               response := Some response |}
    else if (statusCode =? 429)%N then
      Throw {| name := InstaparserRateLimitError;
               message := orString errorMessage (lit "Rate limit exceeded");
               statusCode := Some statusCode;
               response := Some response |}
    else if (statusCode =? 400)%N then
      Throw {| name := InstaparserValidationError;
               message := orString errorMessage (lit "Invalid request");
               statusCode := Some statusCode;
               response := Some response |}
    else
      Throw {| name := InstaparserAPIError;
               message := errorMessage;
               statusCode := Some statusCode;
               response := Some response |}.

End HandleResponse.

(** The [catch] block around the streaming request of [summary]: when
    the error of axios carries a response, [handleResponse] is run on a
    mock response whose data is a string (so it has no [reason]), and
    throws unless the status is 200; otherwise the error is thrown
    again. *)
Definition streamRequestFailed (S : Type) (error : AxiosError S)
  : thrown jsstring S :=
  match axiosResponse error with
  | Some r =>
      let mockResponse :=
        {| status := status r; data := requestFailed (status r) |} in
      match handleResponse (fun _ => None) mockResponse with
      | Throw e => Insta e
      | Return _ => Axios error
      end
  | None => Axios error
  end.

(** [new InstaparserValidationError(message)] *)
Definition validationError (T : Type) (msg : jsstring) : error T :=
  {| name := InstaparserValidationError;
     message := msg;
     statusCode := None;
     response := None |}.

(** [output !== 'html' && output !== 'text'] *)
Definition badOutput (output : jsstring) : bool :=
  negb (strictEq output (lit "html")) && negb (strictEq output (lit "text")).

(** [if (!useCache) fields.use_cache = 'false'], [useCache] defaulting
    to [true]. *)
Definition cacheField (useCache : option bool) : list (jsstring * jsstring) :=
  if negb (nullish useCache true) then [(lit "use_cache", lit "false")]
  else [].

(** What [options.file] of [pdf] can be at run time. *)
Inductive fileArg :=
| IsBuffer (b : Utf8.Buffer)
| IsReadable (chunks : list Utf8.Buffer)
| IsString (path : jsstring)
| IsOther.

(** A request handed to axios: the JSON payload of a POST, the upload of
    a file with its form fields, or the parameters of a GET; members are
    listed in the order the code sets them.  Headers are left out. *)
Inductive request :=
| PostJson (endpoint : jsstring) (payload : list (jsstring * jsstring))
| PostForm (endpoint : jsstring) (upload : fileArg)
           (formFields : list (jsstring * jsstring))
| Get (endpoint : jsstring) (params : list (jsstring * jsstring)).

Module ArticleOptions.
Record ArticleOptions := {
  url : jsstring;
  content : option jsstring;
  output : option jsstring;
  useCache : option bool
}.
End ArticleOptions.

Module PDFOptions.
Record PDFOptions := {
  url : option jsstring;
  file : option fileArg;
  output : option jsstring;
  useCache : option bool
}.
End PDFOptions.

Section Methods.
Variable number : Type.
Variable zero : number.
Let Data := ArticleData.ArticleData number.
Variable reasonOf : Data -> option jsstring.

(** [this.axiosInstance.post] and [.get]: a response, or a thrown
    error. *)
Variable http : request -> result (AxiosResponse Data) (AxiosError Data).

(** The request [article] builds, unless [output] is refused. *)
Definition articleRequest (options : ArticleOptions.ArticleOptions)
  : result request (error Data) :=
  let output := nullish (ArticleOptions.output options) (lit "html") in
  if badOutput output then
    Throw (validationError Data (lit "output must be 'html' or 'text'"))
  else
    Return
      (PostJson (lit "/api/1/article")
         ([(lit "url", ArticleOptions.url options); (lit "output", output)]
            ++ cacheField (ArticleOptions.useCache options)
            ++ match ArticleOptions.content options with
               | Some content => [(lit "content", content)]
               | None => []
               end)).

(** The rest of [article] and of [pdf]: the request is sent, the
    response goes through [handleResponse], the data to the
    constructor. *)
Definition send (A : Type) (construct : Data -> A)
  (built : result request (error Data)) : result A (thrown Data Data) :=
  match built with
  | Throw e => Throw (Insta e)
  | Return req =>
      match http req with
      | Throw e => Throw (Axios e)
      | Return response =>
          match handleResponse reasonOf response with
          | Throw e => Throw (Insta e)
          | Return data => Return (construct data)
          end
      end
  end.

(** [article(options)] *)
Definition article (options : ArticleOptions.ArticleOptions)
  : result (Article.Article number) (thrown Data Data) :=
  send (Article.new zero) (articleRequest options).

(** The request [pdf] builds, unless the options are refused. *)
Definition pdfRequest (options : PDFOptions.PDFOptions)
  : result request (error Data) :=
  let output := nullish (PDFOptions.output options) (lit "html") in
  if badOutput output then
    Throw (validationError Data (lit "output must be 'html' or 'text'"))
  else
    match PDFOptions.file options with
    | Some file =>
        let formFields :=
          [(lit "output", output)]
            ++ cacheField (PDFOptions.useCache options)
            ++ match PDFOptions.url options with
               | Some url => if truthy url then [(lit "url", url)] else []
               | None => []
               end in
        match file with
        | IsBuffer _ | IsReadable _ =>
            Return (PostForm (lit "/api/1/pdf") file formFields)
        | IsString _ =>
            Throw (validationError Data
                     (lit "File path strings are not supported. Please provide a Buffer or Readable stream."))
        | IsOther =>
            Throw (validationError Data
                     (lit "File must be a Buffer, Readable stream, or file path string"))
        end
    | None =>
        match PDFOptions.url options with
        | Some url =>
            if truthy url then
              Return
                (Get (lit "/api/1/pdf")
                   ([(lit "url", url); (lit "output", output)]
                      ++ cacheField (PDFOptions.useCache options)))
            else
              Throw (validationError Data
                       (lit "Either 'url' or 'file' must be provided"))
        | None =>
            Throw (validationError Data
                     (lit "Either 'url' or 'file' must be provided"))
        end
    end.

(** [pdf(options)] *)
Definition pdf (options : PDFOptions.PDFOptions)
  : result (Article.Article number) (thrown Data Data) :=
  send (Article.PDF zero) (pdfRequest options).

End Methods.

End Client.

(* ================================================================== *)
(** ** The wire format as the specification words it *)
(* ================================================================== *)

Module Spec.
Import JS.

(** A line the handlers look at: not empty and not only white space
    ([line.trim()] is truthy). *)
Definition nonBlank (line : jsstring) : bool := truthy (trim line).

(** [s] ends with the line terminator. *)
Definition endsWithLF (s : jsstring) : bool :=
  match rev s with
  | c :: _ => (c =? 0x0A)%N
  | [] => false
  end.

(** "S split on ['\n'], dropping a single trailing empty segment if S
    ends with ['\n']". *)
Definition specLines (s : jsstring) : list jsstring :=
  if endsWithLF s then removelast (splitAll s LF) else splitAll s LF.

(** "The text after the first occurrence of" a separator, when there is
    one. *)
Fixpoint afterFirst (sep s : jsstring) : option jsstring :=
  if startsWith s sep then Some (skipn (List.length sep) s)
  else
    match s with
    | [] => None
    | _ :: s' => afterFirst sep s'
    end.

(** "Extract the text after the first colon, trim surrounding
    whitespace": the payload of a [key_sentences:] line. *)
Definition payload (line : jsstring) : option jsstring :=
  option_map trim (afterFirst (lit ":") line).

(** Lines put back together, "each with its terminator restored". *)
Definition withTerminators (lines : list jsstring) : jsstring :=
  concat (map (fun line => line ++ LF) lines).

(** The text the ['data'] handlers decode from [chunks], chunk by chunk. *)
Definition decoded (chunks : list Utf8.Buffer) : jsstring :=
  concat (map Utf8.toString chunks).

(** [a] is a prefix of [b]. *)
Definition isPrefix (a b : jsstring) : Prop := exists c, b = a ++ c.

(** No line terminator occurs in [s]. *)
Definition lineFree (s : jsstring) : Prop := ~ In 0x0A%N s.

(** The text before the first occurrence of a separator, all the text
    when there is none. *)
Fixpoint beforeFirst (sep s : jsstring) : jsstring :=
  if startsWith s sep then []
  else
    match s with
    | [] => []
    | c :: s' => c :: beforeFirst sep s'
    end.

(** Every byte is an ASCII character. *)
Definition ascii (bs : Utf8.Buffer) : Prop :=
  Forall (fun b => (Byte.to_N b <= 0x7F)%N) bs.

End Spec.

(* ================================================================== *)
(** ** Derived form of the per-line code *)
(* ================================================================== *)

Module Derived.
Import JS Stream Spec.

(** What a line does to the state once the [key_sentences:] branch is
    seen to read an index that [split(':', 1)] never fills: the callback,
    then the [delta:] branch on lines without the other tag. *)
Definition lineEffect (st : state) (line : jsstring) : state :=
  if nonBlank line then
    let st := streamCallback line st in
    if startsWith line (lit "key_sentences:") then st
    else deltaBranch line st
  else st.

(** The whole response in one pass over its decoded text: the line
    effects of all segments but the last, the last segment left in the
    buffer and given its line effect by the ['end'] handler, then
    [resolve]. *)
Definition wholeText (text : jsstring) : state :=
  let segments := splitAll text LF in
  let st :=
    setBuffer (last segments [])
      (fold_left lineEffect (removelast segments) initial) in
  let st := lineEffect st (buffer st) in
  resolve {| Summary.keySentences := keySentences st;
             Summary.overview := overview st |} st.


(** What a line adds to [overview], read off the two handlers: the
    [deltaContent] of a non-blank [delta:] line, nothing for every other
    line. *)
Definition contribution (line : jsstring) : jsstring :=
  if nonBlank line then
    if startsWith line (lit "key_sentences:") then []
    else if startsWith line (lit "delta:") then orEmpty (deltaContentOf line)
    else []
  else [].

End Derived.

(* ================================================================== *)
(** ** Sample responses *)
(* ================================================================== *)

Module Sample.
Import JS.

(** The code units of an ASCII literal in which ['] stands for the double
    quote. *)
Definition str (s : string) : jsstring :=
  map (fun c => if (c =? 0x27)%N then 0x22%N else c) (lit s).

(** The same literal as the bytes the server sends for it. *)
Definition text (s : string) : Utf8.Buffer :=
  map (fun b => if Byte.eqb b Byte.x27 then Byte.x22 else b)
      (list_byte_of_string s).

(** A terminated line of the response. *)
Definition line (s : string) : Utf8.Buffer := text s ++ [Byte.x0a].

(** The three bytes of U+20AC, the euro sign. *)
Definition euro : Utf8.Buffer := [Byte.xe2; Byte.x82; Byte.xac].

(** The data of a right-to-left article with a video, numbers being
    natural numbers. *)
Definition rtlData : ArticleData.ArticleData N :=
  {| ArticleData.url := Some (lit "https://example.com/a");
     ArticleData.title := Some (lit "A");
     ArticleData.site_name := None;
     ArticleData.author := None;
     ArticleData.date := Some 1700000000%N;
     ArticleData.description := None;
     ArticleData.thumbnail := None;
     ArticleData.words := Some 3%N;
     ArticleData.is_rtl := Some true;
     ArticleData.images := None;
     ArticleData.videos := Some [lit "https://example.com/v"];
     ArticleData.html := Some (lit "<p>a b c</p>");
     ArticleData.text := None |}.

(** A transport that answers every request with status 200 and
    [rtlData]. *)
Definition server (req : Client.request)
  : Client.result (Client.AxiosResponse (ArticleData.ArticleData N))
                  (Client.AxiosError (ArticleData.ArticleData N)) :=
  Client.Return {| Client.status := 200%N; Client.data := rtlData |}.

(** A body without [reason]. *)
Definition noReason (data : ArticleData.ArticleData N) : option jsstring :=
  None.

(** [pdf({ file: 'document.pdf' })] and [pdf({ url: ... })] *)
Definition pdfPath : Client.PDFOptions.PDFOptions :=
  {| Client.PDFOptions.url := None;
     Client.PDFOptions.file := Some (Client.IsString (lit "document.pdf"));
     Client.PDFOptions.output := None;
     Client.PDFOptions.useCache := None |}.

Definition pdfUrl : Client.PDFOptions.PDFOptions :=
  {| Client.PDFOptions.url := Some (lit "https://example.com/a.pdf");
     Client.PDFOptions.file := None;
     Client.PDFOptions.output := None;
     Client.PDFOptions.useCache := Some false |}.

(** [article({ url: ..., output: 'text' })] *)
Definition articleText : Client.ArticleOptions.ArticleOptions :=
  {| Client.ArticleOptions.url := lit "https://example.com/a";
     Client.ArticleOptions.content := None;
     Client.ArticleOptions.output := Some (lit "text");
     Client.ArticleOptions.useCache := None |}.

End Sample.

Import JS Stream Spec Derived.

(* ================================================================== *)
(** ** Facts about [split] *)
(* ================================================================== *)

Section SplitFacts.

(** A limit of one leaves nothing at index one. *)
Lemma split_limit_one_index_one (s sep : jsstring) :
  nth_error (split s sep (Some 1)) 1 = None.
Proof.
  apply nth_error_None. unfold split.
  destruct (splitAll s sep) as [|x l]; simpl; lia.
Qed.

Lemma splitFrom_nonempty (sep : jsstring) (s : jsstring) :
  forall skip cur, splitFrom sep skip cur s <> [].
Proof.
  induction s as [|c s IH]; intros skip cur; cbn [splitFrom].
  - discriminate.
  - destruct skip as [|k]; [|apply IH].
    destruct (startsWith (c :: s) sep); [discriminate|apply IH].
Qed.

(** The scan for ['\n'], one code unit at a time. *)
Lemma splitFrom_LF_cons (c : N) (s cur : jsstring) :
  splitFrom LF 0 cur (c :: s) =
  if (c =? 0x0A)%N then cur :: splitFrom LF 0 [] s
  else splitFrom LF 0 (cur ++ [c]) s.
Proof.
  cbn [splitFrom]. unfold LF at 1. cbn [startsWith List.length Nat.sub].
  replace (startsWith s []) with true by (destruct s; reflexivity).
  rewrite andb_true_r, N.eqb_sym. reflexivity.
Qed.

Lemma removelast_cons_nonempty (A : Type) (x : A) (l : list A) :
  l <> [] -> removelast (x :: l) = x :: removelast l.
Proof. destruct l; [congruence|reflexivity]. Qed.

Lemma last_cons_nonempty (A : Type) (x d : A) (l : list A) :
  l <> [] -> last (x :: l) d = last l d.
Proof. destruct l; [congruence|reflexivity]. Qed.

(** Splitting a concatenation: the segments of the first part but the
    last, then the scan of the second part resumed in that last one. *)
Lemma splitFrom_LF_app (s t : jsstring) :
  forall cur,
    splitFrom LF 0 cur (s ++ t) =
    removelast (splitFrom LF 0 cur s)
      ++ splitFrom LF 0 (last (splitFrom LF 0 cur s) []) t.
Proof.
  induction s as [|c s IH]; intros cur.
  - reflexivity.
  - rewrite <- app_comm_cons, !splitFrom_LF_cons.
    destruct (c =? 10)%N.
    + rewrite removelast_cons_nonempty, last_cons_nonempty
        by apply splitFrom_nonempty.
      rewrite IH. reflexivity.
    + apply IH.
Qed.

(** A scan resumed in a segment is the scan of that segment and the rest,
    when the segment holds no terminator. *)
Lemma splitFrom_LF_resume (cur : jsstring) :
  lineFree cur ->
  forall acc t, splitFrom LF 0 (acc ++ cur) t = splitFrom LF 0 acc (cur ++ t).
Proof.
  induction cur as [|c cur IH]; intros Hfree acc t.
  - rewrite app_nil_r. reflexivity.
  - rewrite <- app_comm_cons, splitFrom_LF_cons.
    destruct (N.eqb_spec c 10) as [->|Hc].
    + exfalso. apply Hfree. left. reflexivity.
    + rewrite <- IH.
      * rewrite <- app_assoc. reflexivity.
      * intros Hin. apply Hfree. right. exact Hin.
Qed.

(** No segment holds a terminator. *)
Lemma splitFrom_LF_lineFree (s : jsstring) :
  forall cur, lineFree cur -> Forall lineFree (splitFrom LF 0 cur s).
Proof.
  induction s as [|c s IH]; intros cur Hcur.
  - constructor; [exact Hcur|constructor].
  - rewrite splitFrom_LF_cons.
    destruct (N.eqb_spec c 10) as [->|Hc].
    + constructor; [exact Hcur|]. apply IH. intros [].
    + apply IH. intros Hin. apply in_app_or in Hin.
      destruct Hin as [Hin|[Heq|[]]]; [exact (Hcur Hin)|congruence].
Qed.

(** The segments, with the terminators put back between them, are the
    text. *)
Lemma splitFrom_LF_join (s : jsstring) :
  forall cur,
    withTerminators (removelast (splitFrom LF 0 cur s))
      ++ last (splitFrom LF 0 cur s) [] = cur ++ s.
Proof.
  induction s as [|c s IH]; intros cur.
  - simpl. rewrite app_nil_r. reflexivity.
  - rewrite splitFrom_LF_cons.
    destruct (N.eqb_spec c 10) as [->|Hc].
    + rewrite removelast_cons_nonempty, last_cons_nonempty
        by apply splitFrom_nonempty.
      unfold withTerminators in *. simpl.
      rewrite <- !app_assoc. rewrite IH. reflexivity.
    + rewrite IH, <- app_assoc. reflexivity.
Qed.

Lemma Forall_last (A : Type) (P : A -> Prop) (l : list A) (d : A) :
  Forall P l -> P d -> P (last l d).
Proof.
  induction 1 as [|x l Hx Hl IH]; intros Hd; [exact Hd|].
  destruct l; [exact Hx|]. apply IH, Hd.
Qed.

Lemma Forall_removelast (A : Type) (P : A -> Prop) (l : list A) :
  Forall P l -> Forall P (removelast l).
Proof.
  induction 1 as [|x l Hx Hl IH]; [constructor|].
  destruct l; [constructor|]. constructor; assumption.
Qed.

End SplitFacts.

(* ================================================================== *)
(** ** Facts about the handlers *)
(* ================================================================== *)

Section HandlerFacts.
Context {json : JSON.Parser}.

(** [line.split(':', 1)[1]] is [undefined] for every line, so [jsonStr]
    is. *)
Lemma jsonStrOf_undefined (line : jsstring) : jsonStrOf line = None.
Proof.
  unfold jsonStrOf. rewrite split_limit_one_index_one. reflexivity.
Qed.

(** The loop body never leaves the handler, and does what [lineEffect]
    says. *)
Lemma dataLine_effect (st : state) (line : jsstring) :
  dataLine st line = (lineEffect st line, true).
Proof.
  unfold dataLine, lineEffect, nonBlank.
  rewrite jsonStrOf_undefined.
  destruct (truthy (trim line)); [|reflexivity].
  destruct (startsWith line (lit "key_sentences:")); reflexivity.
Qed.

Lemma endLine_effect (st : state) :
  endLine st = lineEffect st (buffer st).
Proof.
  unfold endLine, lineEffect, nonBlank.
  rewrite jsonStrOf_undefined.
  destruct (truthy (trim (buffer st))); [|reflexivity].
  destruct (startsWith (buffer st) (lit "key_sentences:")); reflexivity.
Qed.

Lemma forLines_fold (lines : list jsstring) :
  forall st, forLines lines st = fold_left lineEffect lines st.
Proof.
  induction lines as [|line rest IH]; intros st; [reflexivity|].
  cbn [forLines fold_left]. rewrite dataLine_effect. apply IH.
Qed.

Lemma pop_last (A : Type) (a : list A) (d : A) :
  a <> [] -> pop a = (removelast a, Some (last a d)).
Proof.
  intros Hne. unfold pop. rewrite (app_removelast_last d Hne) at 1. rewrite rev_app_distr. cbn [rev app].
  rewrite rev_involutive. reflexivity.
Qed.

Lemma orEmpty_Some (s : jsstring) : orEmpty (Some s) = s.
Proof. destruct s; reflexivity. Qed.

(** The complete lines are the segments but the last, the new buffer is
    the last segment. *)
Lemma takeLines_segments (buf text : jsstring) :
  takeLines buf text =
  (removelast (splitFrom LF 0 [] (buf ++ text)),
   last (splitFrom LF 0 [] (buf ++ text)) []).
Proof.
  unfold takeLines, split, splitAll, LF at 1.
  rewrite (@pop_last jsstring _ []) by apply splitFrom_nonempty.
  rewrite orEmpty_Some. reflexivity.
Qed.

Lemma lineEffect_setBuffer (b : jsstring) (st : state) (line : jsstring) :
  lineEffect (setBuffer b st) line = setBuffer b (lineEffect st line).
Proof.
  unfold lineEffect, deltaBranch.
  destruct (nonBlank line); [|reflexivity].
  destruct (startsWith line (lit "key_sentences:")); [reflexivity|].
  destruct (startsWith line (lit "delta:")); [|reflexivity].
  destruct (deltaContentOf line) as [d|]; [|reflexivity].
  destruct (truthy d); reflexivity.
Qed.

Lemma fold_lineEffect_setBuffer (b : jsstring) (lines : list jsstring) :
  forall st,
    fold_left lineEffect lines (setBuffer b st) =
    setBuffer b (fold_left lineEffect lines st).
Proof.
  induction lines as [|line rest IH]; intros st; [reflexivity|].
  cbn [fold_left]. rewrite lineEffect_setBuffer. apply IH.
Qed.

(** The ['data'] handler: the line effects of the complete lines, and the
    last segment left in the buffer. *)
Lemma onText_form (st : state) (text : jsstring) :
  onText st text =
  setBuffer (last (splitFrom LF 0 [] (buffer st ++ text)) [])
    (fold_left lineEffect
       (removelast (splitFrom LF 0 [] (buffer st ++ text))) st).
Proof.
  unfold onText. rewrite takeLines_segments, forLines_fold.
  apply fold_lineEffect_setBuffer.
Qed.

Lemma buffer_onText (st : state) (text : jsstring) :
  buffer (onText st text) = last (splitFrom LF 0 [] (buffer st ++ text)) [].
Proof. rewrite onText_form. reflexivity. Qed.

Lemma buffer_onText_lineFree (st : state) (text : jsstring) :
  lineFree (buffer (onText st text)).
Proof.
  rewrite buffer_onText. apply Forall_last.
  - apply splitFrom_LF_lineFree. intros [].
  - intros [].
Qed.

Lemma last_app_nonempty (A : Type) (l1 l2 : list A) (d : A) :
  l2 <> [] -> last (l1 ++ l2) d = last l2 d.
Proof.
  intros Hne. induction l1 as [|x l1 IH]; [reflexivity|].
  rewrite <- app_comm_cons, last_cons_nonempty; [exact IH|].
  destruct l1; [exact Hne|discriminate].
Qed.

(** Two chunks of text in a row are handled as their concatenation in
    one. *)
Lemma onText_onText (st : state) (t1 t2 : jsstring) :
  onText (onText st t1) t2 = onText st (t1 ++ t2).
Proof.
  rewrite (onText_form (onText st t1)), buffer_onText.
  rewrite (onText_form st (t1 ++ t2)), (onText_form st t1).
  set (A1 := splitFrom LF 0 [] (buffer st ++ t1)).
  set (A2 := splitFrom LF 0 [] (last A1 [] ++ t2)).
  assert (HA : splitFrom LF 0 [] (buffer st ++ t1 ++ t2) =
               removelast A1 ++ A2).
  { rewrite app_assoc, splitFrom_LF_app. fold A1. f_equal.
    apply (@splitFrom_LF_resume (last A1 [])) with (acc := []).
    apply Forall_last; [|intros []].
    apply splitFrom_LF_lineFree. intros []. }
  assert (HA2 : A2 <> []) by apply splitFrom_nonempty.
  rewrite HA, removelast_app, last_app_nonempty by exact HA2.
  rewrite fold_lineEffect_setBuffer, fold_left_app.
  reflexivity.
Qed.

Lemma feed_onText (chunks : list Utf8.Buffer) :
  forall st text,
    feed (onText st text) chunks = onText st (text ++ decoded chunks).
Proof.
  induction chunks as [|chunk rest IH]; intros st text.
  - unfold decoded. cbn. rewrite app_nil_r. reflexivity.
  - unfold feed in *. cbn [fold_left]. unfold onData at 2.
    rewrite onText_onText, IH. unfold decoded. cbn [map concat].
    rewrite app_assoc. reflexivity.
Qed.

(** However the response is cut into chunks, the ['data'] handlers leave
    the state that one chunk holding all the decoded text leaves. *)
Lemma feed_initial (chunks : list Utf8.Buffer) :
  feed initial chunks = onText initial (decoded chunks).
Proof.
  change initial with (onText initial []) at 1.
  rewrite feed_onText. reflexivity.
Qed.

End HandlerFacts.

(* ================================================================== *)
(** ** Facts about the line effects *)
(* ================================================================== *)

Section EffectFacts.

Lemma keySentences_lineEffect (st : state) (line : jsstring) :
  keySentences (lineEffect st line) = keySentences st.
Proof.
  unfold lineEffect, deltaBranch.
  destruct (nonBlank line); [|reflexivity].
  destruct (startsWith line (lit "key_sentences:")); [reflexivity|].
  destruct (startsWith line (lit "delta:")); [|reflexivity].
  destruct (deltaContentOf line) as [d|]; [|reflexivity].
  destruct (truthy d); reflexivity.
Qed.

Lemma promise_lineEffect (st : state) (line : jsstring) :
  promise (lineEffect st line) = promise st.
Proof.
  unfold lineEffect, deltaBranch.
  destruct (nonBlank line); [|reflexivity].
  destruct (startsWith line (lit "key_sentences:")); [reflexivity|].
  destruct (startsWith line (lit "delta:")); [|reflexivity].
  destruct (deltaContentOf line) as [d|]; [|reflexivity].
  destruct (truthy d); reflexivity.
Qed.

Lemma delivered_lineEffect (st : state) (line : jsstring) :
  delivered (lineEffect st line) = delivered st ++ filter nonBlank [line].
Proof.
  unfold lineEffect, deltaBranch. cbn [filter].
  destruct (nonBlank line); [|symmetry; apply app_nil_r].
  destruct (startsWith line (lit "key_sentences:")); [reflexivity|].
  destruct (startsWith line (lit "delta:")); [|reflexivity].
  destruct (deltaContentOf line) as [d|]; [|reflexivity].
  destruct (truthy d); reflexivity.
Qed.

Lemma isPrefix_refl (a : jsstring) : isPrefix a a.
Proof. exists []. symmetry. apply app_nil_r. Qed.

Lemma isPrefix_trans (a b c : jsstring) :
  isPrefix a b -> isPrefix b c -> isPrefix a c.
Proof.
  intros [x ->] [y ->]. exists (x ++ y). symmetry. apply app_assoc.
Qed.

Lemma overview_deltaBranch (st : state) (line : jsstring) :
  isPrefix (overview st) (overview (deltaBranch line st)).
Proof.
  unfold deltaBranch.
  destruct (startsWith line (lit "delta:")); [|apply isPrefix_refl].
  destruct (deltaContentOf line) as [d|]; [|apply isPrefix_refl].
  destruct (truthy d); [|apply isPrefix_refl].
  exists d. reflexivity.
Qed.

Lemma overview_lineEffect (st : state) (line : jsstring) :
  isPrefix (overview st) (overview (lineEffect st line)).
Proof.
  unfold lineEffect.
  destruct (nonBlank line); [|apply isPrefix_refl].
  destruct (startsWith line (lit "key_sentences:")); [apply isPrefix_refl|].
  apply (overview_deltaBranch (streamCallback line st)).
Qed.

Lemma keySentences_fold (lines : list jsstring) :
  forall st, keySentences (fold_left lineEffect lines st) = keySentences st.
Proof.
  induction lines as [|l rest IH]; intros st; [reflexivity|].
  cbn [fold_left]. rewrite IH. apply keySentences_lineEffect.
Qed.

Lemma promise_fold (lines : list jsstring) :
  forall st, promise (fold_left lineEffect lines st) = promise st.
Proof.
  induction lines as [|l rest IH]; intros st; [reflexivity|].
  cbn [fold_left]. rewrite IH. apply promise_lineEffect.
Qed.

Lemma delivered_fold (lines : list jsstring) :
  forall st,
    delivered (fold_left lineEffect lines st) =
    delivered st ++ filter nonBlank lines.
Proof.
  induction lines as [|l rest IH]; intros st.
  - symmetry. apply app_nil_r.
  - cbn [fold_left]. rewrite IH, delivered_lineEffect, <- app_assoc.
    change (l :: rest) with ([l] ++ rest). rewrite filter_app.
    reflexivity.
Qed.

Lemma overview_fold (lines : list jsstring) :
  forall st, isPrefix (overview st) (overview (fold_left lineEffect lines st)).
Proof.
  induction lines as [|l rest IH]; intros st; [apply isPrefix_refl|].
  cbn [fold_left].
  eapply isPrefix_trans; [apply overview_lineEffect|apply IH].
Qed.

End EffectFacts.

(* ================================================================== *)
(** ** Facts about the decoder *)
(* ================================================================== *)

Section DecoderFacts.

Lemma run_app (a b : Utf8.Buffer) :
  forall st,
    Utf8.run st (a ++ b) =
    (fst (Utf8.run (fst (Utf8.run st a)) b),
     snd (Utf8.run st a) ++ snd (Utf8.run (fst (Utf8.run st a)) b)).
Proof.
  induction a as [|x a IH]; intros st.
  - cbn. destruct (Utf8.run st b); reflexivity.
  - cbn [app Utf8.run].
    destruct (Utf8.step st (Byte.to_N x)) as [st1 out1].
    rewrite IH.
    destruct (Utf8.run st1 a) as [st2 out2]. cbn [fst snd].
    destruct (Utf8.run st2 b) as [st3 out3]. cbn [fst snd].
    rewrite app_assoc. reflexivity.
Qed.

(** A buffer that ends between two characters decodes on its own as it
    does in front of more bytes. *)
Lemma toString_app (a b : Utf8.Buffer) :
  Utf8.endsOnBoundary a = true ->
  Utf8.toString (a ++ b) = Utf8.toString a ++ Utf8.toString b.
Proof.
  unfold Utf8.endsOnBoundary, Utf8.toString. intros Ha.
  rewrite run_app.
  destruct (Utf8.run None a) as [st1 out1]. cbn [fst snd] in *.
  destruct st1 as [p|]; [discriminate|].
  destruct (Utf8.run None b) as [st2 out2]. cbn [fst snd Utf8.flush].
  rewrite app_nil_r, app_assoc. reflexivity.
Qed.

Lemma decoded_concat (chunks : list Utf8.Buffer) :
  Forall (fun chunk => Utf8.endsOnBoundary chunk = true) (removelast chunks) ->
  decoded chunks = Utf8.toString (concat chunks).
Proof.
  unfold decoded.
  induction chunks as [|chunk rest IH]; intros Hall; [reflexivity|].
  destruct rest as [|next rest].
  - cbn. rewrite !app_nil_r. reflexivity.
  - rewrite removelast_cons_nonempty in Hall by discriminate.
    inversion Hall as [|? ? Hchunk Hrest]; subst.
    cbn [map concat] in *. rewrite toString_app by exact Hchunk.
    rewrite IH by exact Hrest. reflexivity.
Qed.

End DecoderFacts.

(* ================================================================== *)
(** ** The response as a whole *)
(* ================================================================== *)

Section ResponseFacts.
Context {json : JSON.Parser}.

(** The chunks matter only through the text they decode to. *)
Lemma finish_wholeText (chunks : list Utf8.Buffer) :
  finish chunks = wholeText (decoded chunks).
Proof.
  unfold finish, onEnd. rewrite endLine_effect, feed_initial, onText_form.
  reflexivity.
Qed.

Lemma promise_feed (chunks : list Utf8.Buffer) :
  promise (feed initial chunks) = None.
Proof.
  rewrite feed_initial, onText_form. cbn [promise setBuffer].
  apply promise_fold.
Qed.

(** The streaming branch never assigns [keySentences]. *)
Lemma keySentences_feed (chunks : list Utf8.Buffer) :
  keySentences (feed initial chunks) = JSON.strings [].
Proof.
  rewrite feed_initial, onText_form. cbn [keySentences setBuffer].
  apply keySentences_fold.
Qed.

Lemma settle_pending (o : settlement) (st : state) :
  promise st = None -> promise (settle o st) = Some o.
Proof. unfold settle. intros ->. reflexivity. Qed.

(** A response that ends always resolves the promise, with no key
    sentences. *)
Lemma summary_resolved (chunks : list Utf8.Buffer) :
  summary chunks =
  Some (Resolved {| Summary.keySentences := JSON.strings [];
                    Summary.overview := overview (finish chunks) |}).
Proof.
  unfold summary, finish at 1, onEnd, resolve.
  rewrite settle_pending.
  - rewrite endLine_effect, keySentences_lineEffect, keySentences_feed.
    do 3 f_equal. unfold finish, onEnd, resolve, settle.
    rewrite endLine_effect.
    destruct (promise (lineEffect _ _)); reflexivity.
  - rewrite endLine_effect, promise_lineEffect. apply promise_feed.
Qed.

(** A text that ends with the terminator has an empty last segment. *)
Lemma last_segment_after_LF (s : jsstring) :
  endsWithLF s = true -> last (splitAll s LF) [] = [].
Proof.
  unfold endsWithLF. intros Hend.
  destruct (rev s) as [|c r] eqn:Hrev; [discriminate|].
  apply N.eqb_eq in Hend. subst c.
  assert (Hs : s = rev r ++ [0x0A%N]).
  { rewrite <- (rev_involutive s), Hrev. reflexivity. }
  rewrite Hs. unfold splitAll, LF at 1.
  rewrite splitFrom_LF_app, last_app_nonempty by apply splitFrom_nonempty.
  rewrite splitFrom_LF_cons. reflexivity.
Qed.

(** Dropping the trailing empty segment changes nothing once blank lines
    are left out. *)
Lemma filter_nonBlank_specLines (s : jsstring) :
  filter nonBlank (specLines s) = filter nonBlank (splitAll s LF).
Proof.
  unfold specLines. destruct (endsWithLF s) eqn:Hend; [|reflexivity].
  assert (Hne : splitAll s LF <> []) by apply splitFrom_nonempty.
  rewrite (app_removelast_last [] Hne) at 2.
  rewrite last_segment_after_LF by exact Hend.
  rewrite filter_app. cbn. rewrite app_nil_r. reflexivity.
Qed.

Lemma delivered_wholeText (text : jsstring) :
  delivered (wholeText text) = filter nonBlank (splitAll text LF).
Proof.
  unfold wholeText, resolve, settle.
  set (A := splitAll text LF).
  assert (Hne : A <> []) by apply splitFrom_nonempty.
  match goal with
  | |- delivered (match ?p with _ => _ end) = _ => destruct p
  end; cbn [delivered];
    rewrite delivered_lineEffect; cbn [buffer delivered setBuffer];
    rewrite delivered_fold; cbn [delivered initial app];
    rewrite <- filter_app; f_equal; symmetry;
    apply app_removelast_last; exact Hne.
Qed.

Lemma withTerminators_app (a b : list jsstring) :
  withTerminators (a ++ b) = withTerminators a ++ withTerminators b.
Proof. unfold withTerminators. rewrite map_app. apply concat_app. Qed.

(** What the ['data'] handlers took out of the buffer, and what they left
    in it, is all the text they were given after what the buffer held. *)
Lemma extracted_join (chunks : list Utf8.Buffer) :
  forall st,
    buffer st ++ decoded chunks =
    withTerminators (extracted st chunks) ++ buffer (feed st chunks).
Proof.
  induction chunks as [|chunk rest IH]; intros st.
  - cbn. apply app_nil_r.
  - cbn [extracted].
    change (feed st (chunk :: rest)) with (feed (onData st chunk) rest).
    rewrite withTerminators_app, <- app_assoc, <- IH.
    unfold onData at 1. rewrite buffer_onText, takeLines_segments.
    cbn [fst]. rewrite app_assoc, splitFrom_LF_join.
    unfold decoded. cbn [map concat app].
    rewrite app_assoc. reflexivity.
Qed.

Lemma extracted_lineFree (chunks : list Utf8.Buffer) :
  forall st, Forall lineFree (extracted st chunks).
Proof.
  induction chunks as [|chunk rest IH]; intros st; [constructor|].
  cbn [extracted]. apply Forall_app. split; [|apply IH].
  rewrite takeLines_segments. cbn [fst].
  apply Forall_removelast, splitFrom_LF_lineFree. intros [].
Qed.

End ResponseFacts.

(* ================================================================== *)
(** ** The model on small inputs *)
(* ================================================================== *)

Section Checks.

Example split_limit_keeps_the_first_segments :
  split (lit "a:b:c") (lit ":") None = [lit "a"; lit "b"; lit "c"]
  /\ split (lit "a:b:c") (lit ":") (Some 2) = [lit "a"; lit "b"]
  /\ split (lit "a:b:c") (lit ":") (Some 1) = [lit "a"]
  /\ split (lit "a:b:c") (lit ":") (Some 0) = [].
Proof. repeat split. Qed.

Example split_of_the_empty_string :
  split [] LF None = [[]] /\ split (lit "a" ++ LF) LF None = [lit "a"; []].
Proof. repeat split. Qed.

Example trim_strips_both_ends :
  trim (lit "  a b " ++ LF) = lit "a b" /\ trim (lit "   ") = [].
Proof. split; vm_compute; reflexivity. Qed.

Example toString_of_whole_and_cut_characters :
  Utf8.toString Sample.euro = [0x20AC%N]
  /\ Utf8.toString [Byte.xf0; Byte.x9f; Byte.x98; Byte.x80]
     = [0xD83D%N; 0xDE00%N]
  /\ Utf8.toString [Byte.xe2; Byte.x82] = [Utf8.REPLACEMENT]
  /\ Utf8.toString [Byte.xac] = [Utf8.REPLACEMENT].
Proof. repeat split. Qed.

Example two_deltas_are_concatenated :
  @summary JSON.stringArrays
    [Sample.line "delta: Hello"; Sample.line "delta: World"] =
  Some (Resolved {| Summary.keySentences := JSON.strings [];
                    Summary.overview := lit "HelloWorld" |}).
Proof. vm_compute. reflexivity. Qed.

Example transport_error_rejects :
  promise (@onError (@feed JSON.stringArrays initial [Sample.line "delta: x"])
             (lit "socket hang up")) =
  Some (Rejected {| message := lit "Stream error: socket hang up";
                    statusCode := None;
                    response := Some (lit "socket hang up") |}).
Proof. vm_compute. reflexivity. Qed.

End Checks.

(* ================================================================== *)
(** ** The claims *)
(* ================================================================== *)

(** C1 (the code departs from the claim).  The claim: a [key_sentences:]
    line whose payload parses replaces [keySentences], the last such line
    winning.  The code: for a response of two such lines, with payloads
    that parse to ["a","b"] and to ["c"], the promise resolves with the
    initial empty [keySentences], whatever [JSON.parse] is, because
    [split(':', 1)[1]] is [undefined] and the parser is never called. *)
Theorem C1_key_sentences_lines_leave_keySentences_empty :
  (forall json : JSON.Parser,
      summary [Sample.line "key_sentences: ['a','b']";
               Sample.line "key_sentences: ['c']"] =
      Some (Resolved {| Summary.keySentences := JSON.strings [];
                        Summary.overview := [] |}))
  /\ payload (Sample.str "key_sentences: ['c']") = Some (Sample.str "['c']")
  /\ JSON.parseStringArray (Sample.str "['c']") = Some (JSON.strings [lit "c"]).
Proof.
  split; [|split; vm_compute; reflexivity].
  intros json. rewrite summary_resolved, finish_wholeText.
  vm_compute. reflexivity.
Qed.

(** C2, as stated, fails: (1) the response of the lines [a], the empty
    line and [b] delivers the two non-empty lines only; (2) a chunk
    boundary inside the three bytes of U+20AC delivers a line of
    replacement characters, not the line of the concatenation decoded at
    once. *)
Lemma C2_blank_or_cut_lines_differ_from_the_split :
  delivered
    (@finish JSON.stringArrays
       [Sample.line "a"; [Byte.x0a]; Sample.line "b"])
  <> specLines
       (Utf8.toString
          (concat [Sample.line "a"; [Byte.x0a]; Sample.line "b"]))
  /\ delivered
       (@finish JSON.stringArrays
          [[Byte.xe2; Byte.x82]; [Byte.xac; Byte.x0a]])
     <> specLines
          (Utf8.toString (concat [[Byte.xe2; Byte.x82]; [Byte.xac; Byte.x0a]])).
Proof.
  split; vm_compute; discriminate.
Qed.

(** C2 (amended).  For every sequence of byte chunks, with S the
    concatenation of the texts the chunks decode to one by one, the line
    callback is invoked exactly once per non-blank element, in order, of S
    split on ['\n'] (dropping a single trailing empty segment if S ends
    with ['\n']), with no terminator in any delivered line, wherever the
    chunk boundaries fall; empty and whitespace-only lines are not
    delivered. *)
Theorem C2_callback_gets_the_non_blank_lines
  (json : JSON.Parser) (chunks : list Utf8.Buffer) :
  delivered (finish chunks) = filter nonBlank (specLines (decoded chunks))
  /\ Forall lineFree (delivered (finish chunks)).
Proof.
  rewrite finish_wholeText, delivered_wholeText. split.
  - symmetry. apply filter_nonBlank_specLines.
  - apply Forall_forall. intros line Hin. apply filter_In in Hin.
    destruct Hin as [Hin _]. revert line Hin. apply Forall_forall.
    apply splitFrom_LF_lineFree. intros [].
Qed.

(** C3 (the code departs from the claim).  The claim: a terminated
    [key_sentences:] line whose payload is not a JSON array of strings
    rejects the promise.  The code: such a line, here with the payload
    [not json], leaves the promise to be resolved at the end of the
    response, whatever [JSON.parse] is; the parser is never called. *)
Theorem C3_malformed_key_sentences_line_still_resolves :
  (forall json : JSON.Parser,
      summary [Sample.line "key_sentences: not json"] =
      Some (Resolved {| Summary.keySentences := JSON.strings [];
                        Summary.overview := [] |}))
  /\ payload (Sample.str "key_sentences: not json") = Some (lit "not json")
  /\ JSON.parseStringArray (lit "not json") = None.
Proof.
  split; [|split; vm_compute; reflexivity].
  intros json. rewrite summary_resolved, finish_wholeText.
  vm_compute. reflexivity.
Qed.

(** C4 (the code departs from the claim).  The claim: the entire text
    after the first [": "] of a [delta:] line is appended to [overview].
    The code: for the line [delta: a: b] the text after the first
    separator is [a: b], and [overview] receives [a] only, since
    [split(': ', 2)] keeps two segments and drops the rest.  (A line
    [delta:NoSpace], without the separator, leaves [overview] unchanged,
    as the claim says.) *)
Theorem C4_delta_text_is_cut_at_the_second_separator :
  (forall json : JSON.Parser,
      summary [Sample.line "delta: a: b"] =
      Some (Resolved {| Summary.keySentences := JSON.strings [];
                        Summary.overview := lit "a" |}))
  /\ afterFirst (lit ": ") (lit "delta: a: b") = Some (lit "a: b")
  /\ (forall json : JSON.Parser,
         summary [Sample.line "delta:NoSpace"] =
         Some (Resolved {| Summary.keySentences := JSON.strings [];
                           Summary.overview := [] |})).
Proof.
  split; [|split; [vm_compute; reflexivity|]];
    intros json; rewrite summary_resolved, finish_wholeText;
    vm_compute; reflexivity.
Qed.

(** C5, as stated, fails: with the line [delta: ] and U+20AC cut after
    the second of its three bytes, the text decoded chunk by chunk is not
    the text of the concatenation, and the summary differs from the one
    of the concatenation sent as a single chunk. *)
Lemma C5_character_cut_by_a_chunk_boundary :
  decoded [Sample.text "delta: " ++ [Byte.xe2; Byte.x82];
           [Byte.xac; Byte.x0a]]
  <> Utf8.toString
       (concat [Sample.text "delta: " ++ [Byte.xe2; Byte.x82];
                [Byte.xac; Byte.x0a]])
  /\ @summary JSON.stringArrays
       [Sample.text "delta: " ++ [Byte.xe2; Byte.x82]; [Byte.xac; Byte.x0a]]
     <> @summary JSON.stringArrays
          [concat [Sample.text "delta: " ++ [Byte.xe2; Byte.x82];
                   [Byte.xac; Byte.x0a]]].
Proof.
  split; vm_compute; discriminate.
Qed.

(** C5 (amended).  For every byte-chunk sequence in which every chunk
    but the last ends between two characters (no chunk boundary falls
    inside a UTF-8 multi-byte encoding), the accumulator decodes the
    stream to the same text as decoding the concatenation of all chunks
    at once; consequently the delivered lines, final overview and final
    keySentences are those of that text. *)
Theorem C5_chunks_cut_between_characters
  (json : JSON.Parser) (chunks : list Utf8.Buffer) :
  Forall (fun chunk => Utf8.endsOnBoundary chunk = true) (removelast chunks) ->
  decoded chunks = Utf8.toString (concat chunks)
  /\ finish chunks = finish [concat chunks].
Proof.
  intros Hall. apply decoded_concat in Hall. split; [exact Hall|].
  rewrite !finish_wholeText, Hall. unfold decoded. cbn [map concat].
  rewrite app_nil_r. reflexivity.
Qed.

Lemma C5_chunks_cut_between_characters_witness :
  decoded [Sample.text "delta: "; Sample.euro; [Byte.x0a]]
  = Utf8.toString (concat [Sample.text "delta: "; Sample.euro; [Byte.x0a]])
  /\ @finish JSON.stringArrays
       [Sample.text "delta: "; Sample.euro; [Byte.x0a]]
     = @finish JSON.stringArrays
         [concat [Sample.text "delta: "; Sample.euro; [Byte.x0a]]].
Proof.
  apply (@C5_chunks_cut_between_characters JSON.stringArrays
           [Sample.text "delta: "; Sample.euro; [Byte.x0a]]).
  repeat constructor.
Defined.

(** C6.  If the end-of-stream flush processes a non-blank trailing
    buffer that starts with [key_sentences:] and whose payload fails JSON
    parsing, the promise is still resolved, and the Summary carries the
    [keySentences] (and [overview]) that existed before the flush. *)
Theorem C6_parse_failure_in_the_final_flush_is_not_fatal
  (json : JSON.Parser) (st : state) :
  promise st = None ->
  nonBlank (buffer st) = true ->
  startsWith (buffer st) (lit "key_sentences:") = true ->
  (exists p, payload (buffer st) = Some p /\ JSON.parse p = None) ->
  promise (onEnd st) =
  Some (Resolved {| Summary.keySentences := keySentences st;
                    Summary.overview := overview st |})
  /\ keySentences (onEnd st) = keySentences st.
Proof.
  intros Hpending Hblank Htag _.
  unfold onEnd. rewrite endLine_effect. unfold lineEffect.
  rewrite Hblank, Htag. unfold resolve, settle. cbn. rewrite Hpending.
  split; reflexivity.
Qed.

Lemma C6_parse_failure_in_the_final_flush_is_not_fatal_witness :
  promise
    (@onEnd JSON.stringArrays
       (setKeySentences (JSON.strings [lit "kept"])
          (setBuffer (Sample.str "key_sentences: ['cut") initial))) =
  Some (Resolved {| Summary.keySentences := JSON.strings [lit "kept"];
                    Summary.overview := [] |})
  /\ keySentences
       (@onEnd JSON.stringArrays
          (setKeySentences (JSON.strings [lit "kept"])
             (setBuffer (Sample.str "key_sentences: ['cut") initial))) =
     JSON.strings [lit "kept"].
Proof.
  apply (@C6_parse_failure_in_the_final_flush_is_not_fatal JSON.stringArrays
           (setKeySentences (JSON.strings [lit "kept"])
              (setBuffer (Sample.str "key_sentences: ['cut") initial))).
  - reflexivity.
  - vm_compute. reflexivity.
  - vm_compute. reflexivity.
  - exists (Sample.str "['cut"). split; vm_compute; reflexivity.
Defined.

(** C7.  Two chunk sequences that carry the same character stream (the
    chunks of each decode to texts with the same concatenation) resolve
    to the same Summary: the same overview and the same keySentences. *)
Theorem C7_chunk_boundaries_do_not_change_the_summary
  (json : JSON.Parser) (chunks1 chunks2 : list Utf8.Buffer) :
  decoded chunks1 = decoded chunks2 ->
  exists s : Summary,
    summary chunks1 = Some (Resolved s) /\ summary chunks2 = Some (Resolved s).
Proof.
  intros Hsame. eexists. split; [apply summary_resolved|].
  rewrite summary_resolved, !finish_wholeText, Hsame. reflexivity.
Qed.

Lemma C7_chunk_boundaries_do_not_change_the_summary_witness :
  exists s : Summary,
    @summary JSON.stringArrays
      [Sample.text "delta: Hel"; Sample.line "lo"; Sample.text "delta: Wo";
       Sample.text "rld"] = Some (Resolved s)
    /\ @summary JSON.stringArrays
         [Sample.text "del"; Sample.text "ta: Hello"; [Byte.x0a];
          Sample.text "delta: World"] = Some (Resolved s).
Proof.
  apply (@C7_chunk_boundaries_do_not_change_the_summary JSON.stringArrays).
  vm_compute. reflexivity.
Defined.

(** C8, as stated, fails: after the two chunks that cut U+20AC after
    its second byte, the bytes consumed are those of the one character
    U+20AC, while no line was extracted and the buffer holds replacement
    characters. *)
Lemma C8_bytes_of_a_cut_character_are_not_in_the_buffer :
  Utf8.toString (concat [[Byte.xe2; Byte.x82]; [Byte.xac]])
  <> withTerminators
       (@extracted JSON.stringArrays initial [[Byte.xe2; Byte.x82]; [Byte.xac]])
     ++ buffer
          (@feed JSON.stringArrays initial [[Byte.xe2; Byte.x82]; [Byte.xac]]).
Proof.
  vm_compute. discriminate.
Qed.

(** C8 (amended).  After every ['data'] step, the concatenation of the
    texts decoded from the chunks consumed so far, each chunk decoded on
    its own, is the concatenation of the complete lines extracted so far,
    each with its terminator restored, followed by the buffer: no decoded
    character is dropped or duplicated.  No extracted line and no buffer
    holds a terminator, and the buffer is the last segment of that text
    split on ['\n'], that is the text after the last terminator seen. *)
Theorem C8_lines_and_buffer_account_for_the_text
  (json : JSON.Parser) (chunks : list Utf8.Buffer) :
  decoded chunks =
    withTerminators (extracted initial chunks) ++ buffer (feed initial chunks)
  /\ Forall lineFree (extracted initial chunks)
  /\ lineFree (buffer (feed initial chunks))
  /\ buffer (feed initial chunks) = last (splitAll (decoded chunks) LF) [].
Proof.
  split; [|split; [|split]].
  - apply (extracted_join chunks initial).
  - apply extracted_lineFree.
  - rewrite feed_initial. apply buffer_onText_lineFree.
  - rewrite feed_initial, buffer_onText. reflexivity.
Qed.

(** C9.  [overview] is append-only: its value before a processed line,
    before a ['data'] step and before the ['end'] step is a prefix of its
    value after. *)
Theorem C9_overview_only_grows (json : JSON.Parser) (st : state) :
  (forall line : jsstring,
      isPrefix (overview st) (overview (fst (dataLine st line))))
  /\ (forall chunk : Utf8.Buffer,
         isPrefix (overview st) (overview (onData st chunk)))
  /\ isPrefix (overview st) (overview (onEnd st)).
Proof.
  split; [|split].
  - intros line. rewrite dataLine_effect. apply overview_lineEffect.
  - intros chunk. unfold onData. rewrite onText_form.
    cbn [overview setBuffer]. apply overview_fold.
  - unfold onEnd, resolve, settle. rewrite endLine_effect.
    destruct (promise (lineEffect st (buffer st)));
      apply overview_lineEffect.
Qed.

(** C10.  For every ArticleData, [new PDF(data)] has [isRtl] false and
    [videos] empty, whatever [is_rtl] and [videos] the data hold, and
    every other field is the one [new Article(data)] has. *)
Theorem C10_PDF_forces_isRtl_and_videos
  (number : Type) (zero : number)
  (data : ArticleData.ArticleData number) :
  let pdf := Article.PDF zero data in
  let article := Article.new zero data in
  Article.isRtl pdf = false
  /\ Article.videos pdf = []
  /\ Article.url pdf = Article.url article
  /\ Article.title pdf = Article.title article
  /\ Article.siteName pdf = Article.siteName article
  /\ Article.author pdf = Article.author article
  /\ Article.date pdf = Article.date article
  /\ Article.description pdf = Article.description article
  /\ Article.thumbnail pdf = Article.thumbnail article
  /\ Article.words pdf = Article.words article
  /\ Article.images pdf = Article.images article
  /\ Article.html pdf = Article.html article
  /\ Article.text pdf = Article.text article
  /\ Article.body pdf = Article.body article.
Proof.
  cbv zeta. repeat split.
Qed.

(* ================================================================== *)
(** ** More facts about [split], [trim] and the line effects *)
(* ================================================================== *)

Section SeparatorFacts.

(** Passing over [skip] code units is scanning the text without them. *)
Lemma splitFrom_skip (sep : jsstring) (s : jsstring) :
  forall skip cur,
    splitFrom sep skip cur s = splitFrom sep 0 cur (skipn skip s).
Proof.
  induction s as [|c s IH]; intros skip cur.
  - destruct skip; reflexivity.
  - destruct skip as [|k]; [reflexivity|].
    cbn [splitFrom skipn]. apply IH.
Qed.

(** The scan up to the first occurrence of a non-empty separator. *)
Lemma splitFrom_first (x : N) (xs s : jsstring) :
  forall cur,
    splitFrom (x :: xs) 0 cur s =
    match afterFirst (x :: xs) s with
    | Some rest =>
        (cur ++ beforeFirst (x :: xs) s) :: splitFrom (x :: xs) 0 [] rest
    | None => [cur ++ s]
    end.
Proof.
  induction s as [|c s IH]; intros cur.
  - cbn. rewrite app_nil_r. reflexivity.
  - cbn [splitFrom afterFirst beforeFirst].
    destruct (startsWith (c :: s) (x :: xs)) eqn:Hstart.
    + rewrite splitFrom_skip. cbn [List.length Nat.sub skipn].
      replace (List.length xs - 0) with (List.length xs) by lia.
      rewrite app_nil_r. reflexivity.
    + rewrite IH.
      destruct (afterFirst (x :: xs) s); rewrite <- app_assoc; reflexivity.
Qed.

Lemma beforeFirst_without_separator (sep s : jsstring) :
  afterFirst sep s = None -> beforeFirst sep s = s.
Proof.
  induction s as [|c s IH]; cbn [afterFirst beforeFirst].
  - destruct (startsWith [] sep); [discriminate|reflexivity].
  - destruct (startsWith (c :: s) sep); [discriminate|].
    intros Hnone. rewrite IH by exact Hnone. reflexivity.
Qed.

(** [line.split(': ', 2)[1]] is the text after the first separator, up
    to the next one. *)
Lemma deltaContentOf_form (line : jsstring) :
  deltaContentOf line =
  option_map (beforeFirst (lit ": ")) (afterFirst (lit ": ") line).
Proof.
  unfold deltaContentOf, split, splitAll.
  change (lit ": ") with [58%N; 32%N].
  rewrite splitFrom_first.
  destruct (afterFirst [58%N; 32%N] line) as [rest|]; [|reflexivity].
  rewrite splitFrom_first. cbn [app option_map].
  destruct (afterFirst [58%N; 32%N] rest) eqn:Hrest; cbn [firstn nth_error].
  - reflexivity.
  - rewrite beforeFirst_without_separator by exact Hrest. reflexivity.
Qed.

Lemma trimStart_keeps (c : N) (s : jsstring) :
  isWhiteSpace c = false -> In c s -> In c (trimStart s).
Proof.
  intros Hc. induction s as [|d s IH]; intros Hin; [exact Hin|].
  cbn [trimStart]. destruct (isWhiteSpace d) eqn:Hd; [|exact Hin].
  destruct Hin as [->|Hin]; [congruence|]. apply IH, Hin.
Qed.

(** A line that holds a code unit other than white space is not blank. *)
Lemma nonBlank_of_visible (c : N) (line : jsstring) :
  isWhiteSpace c = false -> In c line -> nonBlank line = true.
Proof.
  intros Hc Hin. unfold nonBlank, trim, trimEnd.
  assert (Hkept : In c (rev (trimStart (rev (trimStart line))))).
  { apply -> in_rev. apply trimStart_keeps; [exact Hc|].
    apply -> in_rev. apply trimStart_keeps; assumption. }
  destruct (rev (trimStart (rev (trimStart line)))); [destruct Hkept|].
  reflexivity.
Qed.

Lemma startsWith_head (c : N) (p s : jsstring) :
  startsWith s (c :: p) = true -> exists s', s = c :: s'.
Proof.
  destruct s as [|d s]; cbn [startsWith]; [discriminate|].
  intros H. apply andb_prop in H. destruct H as [H _].
  apply N.eqb_eq in H. subst d. exists s. reflexivity.
Qed.

(** A [delta:] line is not blank and does not carry the other tag. *)
Lemma delta_line_tags (line : jsstring) :
  startsWith line (lit "delta:") = true ->
  nonBlank line = true /\ startsWith line (lit "key_sentences:") = false.
Proof.
  intros Hdelta.
  destruct (@startsWith_head 100%N (lit "elta:") line Hdelta) as [s' ->].
  split; [|reflexivity].
  apply (@nonBlank_of_visible 100%N); [reflexivity|left; reflexivity].
Qed.

Lemma overview_lineEffect_contribution (st : state) (line : jsstring) :
  overview (lineEffect st line) = overview st ++ contribution line.
Proof.
  unfold lineEffect, contribution, deltaBranch.
  destruct (nonBlank line); [|symmetry; apply app_nil_r].
  destruct (startsWith line (lit "key_sentences:"));
    [symmetry; apply app_nil_r|].
  destruct (startsWith line (lit "delta:")); [|symmetry; apply app_nil_r].
  destruct (deltaContentOf line) as [[|c d]|];
    cbn; try rewrite app_nil_r; reflexivity.
Qed.

Lemma overview_fold_contribution (lines : list jsstring) :
  forall st,
    overview (fold_left lineEffect lines st) =
    overview st ++ concat (map contribution lines).
Proof.
  induction lines as [|l rest IH]; intros st.
  - cbn. symmetry. apply app_nil_r.
  - cbn [fold_left map concat].
    rewrite IH, overview_lineEffect_contribution, <- app_assoc.
    reflexivity.
Qed.

Lemma overview_wholeText (text : jsstring) :
  overview (wholeText text) = concat (map contribution (splitAll text LF)).
Proof.
  unfold wholeText, resolve, settle.
  set (A := splitAll text LF).
  assert (Hne : A <> []) by apply splitFrom_nonempty.
  assert (HA : concat (map contribution A) =
               concat (map contribution (removelast A))
                 ++ contribution (last A [])).
  { rewrite (app_removelast_last [] Hne) at 1.
    rewrite map_app, concat_app. cbn [map concat].
    rewrite app_nil_r. reflexivity. }
  rewrite HA.
  match goal with
  | |- overview (match ?p with _ => _ end) = _ => destruct p
  end; cbn [overview];
    rewrite overview_lineEffect_contribution; cbn [buffer overview setBuffer];
    rewrite overview_fold_contribution; reflexivity.
Qed.

(** One more terminator at the end of the text adds one empty segment. *)
Lemma splitAll_terminated (text : jsstring) :
  splitAll (text ++ LF) LF = splitAll text LF ++ [[]].
Proof.
  change (splitFrom LF 0 [] (text ++ LF) = splitFrom LF 0 [] text ++ [[]]).
  rewrite splitFrom_LF_app.
  assert (Hlast : forall cur, splitFrom LF 0 cur LF = [cur] ++ [[]])
    by reflexivity.
  rewrite Hlast, app_assoc. f_equal. symmetry.
  apply app_removelast_last, splitFrom_nonempty.
Qed.

Lemma decoded_app (chunks1 chunks2 : list Utf8.Buffer) :
  decoded (chunks1 ++ chunks2) = decoded chunks1 ++ decoded chunks2.
Proof. unfold decoded. rewrite map_app. apply concat_app. Qed.

Lemma splitFrom_LF_single (b : jsstring) :
  lineFree b -> splitFrom LF 0 [] (b ++ []) = [b].
Proof.
  intros Hfree.
  rewrite <- (@splitFrom_LF_resume b Hfree [] []). reflexivity.
Qed.

Lemma run_ascii (bs : Utf8.Buffer) :
  ascii bs -> Utf8.run None bs = (None, map Byte.to_N bs).
Proof.
  induction 1 as [|b bs Hb _ IH]; [reflexivity|].
  cbn [Utf8.run map Utf8.step]. unfold Utf8.lead.
  apply N.leb_le in Hb. rewrite Hb, IH. reflexivity.
Qed.

End SeparatorFacts.

(* ================================================================== *)
(** ** Further properties of the streaming branch *)
(* ================================================================== *)

Section StreamProperties.
Context {json : JSON.Parser}.

Lemma settle_settled (o o' : settlement) (st : state) :
  promise st = Some o' -> promise (settle o st) = Some o'.
Proof. unfold settle. intros H. rewrite H. exact H. Qed.

Lemma promise_onEnd_settled (o : settlement) (st : state) :
  promise st = Some o -> promise (onEnd st) = Some o.
Proof.
  intros H. unfold onEnd, resolve. apply settle_settled.
  rewrite endLine_effect, promise_lineEffect. exact H.
Qed.

(** X1.  From any state, the ['data'] events of one or more chunks leave
    the state that a single event carrying all their decoded text
    leaves: variables, buffer, delivered lines and promise. *)
Theorem X1_data_events_compose
  (st : state) (chunk : Utf8.Buffer) (chunks : list Utf8.Buffer) :
  feed st (chunk :: chunks) = onText st (decoded (chunk :: chunks)).
Proof.
  change (feed st (chunk :: chunks))
    with (feed (onText st (Utf8.toString chunk)) chunks).
  apply feed_onText.
Qed.

(** X2.  An empty chunk changes nothing, provided the buffer holds no
    terminator (as it does after any ['data'] event and at the start). *)
Theorem X2_empty_chunk_changes_nothing (st : state) :
  lineFree (buffer st) -> onData st [] = st.
Proof.
  intros Hfree. unfold onData. change (Utf8.toString []) with (@nil N).
  rewrite onText_form, splitFrom_LF_single by exact Hfree.
  destruct st; reflexivity.
Qed.

(** X3.  A terminator after the last line is optional: the response
    with one more ['\n'] at its end resolves to the same Summary and
    delivers the same lines to the callback. *)
Theorem X3_final_terminator_is_optional (chunks : list Utf8.Buffer) :
  summary (chunks ++ [[Byte.x0a]]) = summary chunks
  /\ delivered (finish (chunks ++ [[Byte.x0a]])) = delivered (finish chunks).
Proof.
  assert (Hdec : decoded (chunks ++ [[Byte.x0a]]) = decoded chunks ++ LF).
  { rewrite decoded_app. reflexivity. }
  split.
  - rewrite !summary_resolved, !finish_wholeText, Hdec.
    rewrite !overview_wholeText, splitAll_terminated.
    rewrite map_app, concat_app. cbn [map concat].
    change (contribution []) with (@nil N).
    rewrite !app_nil_r. reflexivity.
  - rewrite !finish_wholeText, Hdec, !delivered_wholeText.
    rewrite splitAll_terminated, filter_app. cbn. apply app_nil_r.
Qed.

(** X4.  The overview of the final state is the concatenation, in
    order, of what each line of the decoded text contributes: the text
    [split(': ', 2)[1]] of a non-blank [delta:] line, nothing for any
    other line; the last line counts whether terminated or not. *)
Theorem X4_overview_is_the_concatenated_deltas (chunks : list Utf8.Buffer) :
  overview (finish chunks) =
  concat (map contribution (splitAll (decoded chunks) LF)).
Proof.
  rewrite finish_wholeText. apply overview_wholeText.
Qed.

(** X5.  The promise stays pending while chunks arrive and is resolved
    by the end of the stream, never rejected, with the [keySentences]
    and [overview] of the final state. *)
Theorem X5_pending_until_the_end_then_resolved (chunks : list Utf8.Buffer) :
  promise (feed initial chunks) = None
  /\ summary chunks =
     Some (Resolved {| Summary.keySentences := keySentences (finish chunks);
                       Summary.overview := overview (finish chunks) |}).
Proof.
  split; [apply promise_feed|].
  rewrite summary_resolved. do 3 f_equal.
  unfold finish, onEnd, resolve, settle. rewrite endLine_effect.
  destruct (promise (lineEffect _ _)); cbn [keySentences];
    rewrite keySentences_lineEffect, keySentences_feed; reflexivity.
Qed.

(** X6.  A transport error after any chunks rejects the promise with
    the error [Stream error: <message>], without status code and with
    the cause attached; an ['end'] event after it does not resolve the
    promise, and an ['error'] event after the end leaves it resolved. *)
Theorem X6_transport_error_rejects_once
  (chunks : list Utf8.Buffer) (error : jsstring) :
  promise (onError (feed initial chunks) error) =
    Some (Rejected {| message := lit "Stream error: " ++ error;
                      statusCode := None;
                      response := Some error |})
  /\ promise (onEnd (onError (feed initial chunks) error)) =
     promise (onError (feed initial chunks) error)
  /\ promise (onError (finish chunks) error) = summary chunks.
Proof.
  assert (Hrej : promise (onError (feed initial chunks) error) =
                 Some (Rejected (streamError error))).
  { unfold onError, reject. apply settle_pending, promise_feed. }
  split; [exact Hrej|split].
  - rewrite Hrej. apply promise_onEnd_settled, Hrej.
  - unfold onError, reject, summary.
    pose proof (summary_resolved chunks) as Hres. unfold summary in Hres.
    rewrite Hres. apply settle_settled, Hres.
Qed.

End StreamProperties.

Lemma X2_empty_chunk_changes_nothing_witness :
  @onData JSON.stringArrays (setBuffer (lit "delta: par") initial) [] =
  setBuffer (lit "delta: par") initial.
Proof.
  apply (@X2_empty_chunk_changes_nothing JSON.stringArrays
           (setBuffer (lit "delta: par") initial)).
  vm_compute. intros H.
  repeat (destruct H as [H|H]; [discriminate H|]). exact H.
Defined.

Section DeltaProperties.
Context {json : JSON.Parser}.

(** X7.  The text a [delta:] line contributes, [line.split(': ', 2)[1]],
    is the text after the first [": "] of the line up to the next
    [": "], or to the end of the line when there is no other; it is
    [undefined] when the line holds no [": "]. *)
Theorem X7_delta_content_is_the_second_segment (line : jsstring) :
  deltaContentOf line =
  option_map (beforeFirst (lit ": ")) (afterFirst (lit ": ") line).
Proof.
  apply deltaContentOf_form.
Qed.

(** X8.  A [delta:] line with exactly one [": "] appends all the text
    after it to [overview]. *)
Theorem X8_delta_with_one_separator_appends_the_rest
  (st : state) (line rest : jsstring) :
  startsWith line (lit "delta:") = true ->
  afterFirst (lit ": ") line = Some rest ->
  afterFirst (lit ": ") rest = None ->
  overview (fst (dataLine st line)) = overview st ++ rest.
Proof.
  intros Hdelta Hfirst Hrest.
  destruct (delta_line_tags line Hdelta) as [Hblank Hkey].
  rewrite dataLine_effect. cbn [fst].
  rewrite overview_lineEffect_contribution. unfold contribution.
  rewrite Hblank, Hkey, Hdelta, deltaContentOf_form, Hfirst.
  cbn [option_map]. rewrite orEmpty_Some.
  rewrite beforeFirst_without_separator by exact Hrest. reflexivity.
Qed.

(** X9.  A line without [": "] never changes [overview], whatever its
    tag. *)
Theorem X9_line_without_separator_leaves_overview
  (st : state) (line : jsstring) :
  afterFirst (lit ": ") line = None ->
  overview (fst (dataLine st line)) = overview st.
Proof.
  intros Hnone. rewrite dataLine_effect. cbn [fst].
  rewrite overview_lineEffect_contribution. unfold contribution.
  rewrite deltaContentOf_form, Hnone. cbn [option_map orEmpty].
  destruct (nonBlank line); [|apply app_nil_r].
  destruct (startsWith line (lit "key_sentences:")); [apply app_nil_r|].
  destruct (startsWith line (lit "delta:")); apply app_nil_r.
Qed.

End DeltaProperties.

Lemma X8_delta_with_one_separator_appends_the_rest_witness :
  overview
    (fst (@dataLine JSON.stringArrays (appendOverview (lit "Hello") initial)
            (lit "delta: , World:")))
  = lit "Hello" ++ lit ", World:".
Proof.
  apply (@X8_delta_with_one_separator_appends_the_rest JSON.stringArrays
           (appendOverview (lit "Hello") initial)
           (lit "delta: , World:") (lit ", World:"));
    vm_compute; reflexivity.
Defined.

Lemma X9_line_without_separator_leaves_overview_witness :
  overview
    (fst (@dataLine JSON.stringArrays (appendOverview (lit "Hello") initial)
            (lit "delta:NoSpace")))
  = lit "Hello".
Proof.
  apply (@X9_line_without_separator_leaves_overview JSON.stringArrays
           (appendOverview (lit "Hello") initial) (lit "delta:NoSpace")).
  vm_compute. reflexivity.
Defined.

Section AsciiProperties.
Context {json : JSON.Parser}.

(** X10.  A buffer of ASCII bytes decodes to the code units of the same
    values, and ends between two characters. *)
Theorem X10_ascii_decodes_to_itself (bs : Utf8.Buffer) :
  ascii bs ->
  Utf8.toString bs = map Byte.to_N bs /\ Utf8.endsOnBoundary bs = true.
Proof.
  intros Hascii. unfold Utf8.toString, Utf8.endsOnBoundary.
  rewrite run_ascii by exact Hascii. cbn. rewrite app_nil_r.
  split; reflexivity.
Qed.

(** X11.  For a response made of ASCII bytes only, the chunk boundaries
    do not matter at the byte level either: any cutting of the bytes
    into chunks leaves the final state of the whole response sent as one
    chunk. *)
Theorem X11_ascii_response_can_be_cut_anywhere (chunks : list Utf8.Buffer) :
  ascii (concat chunks) ->
  finish chunks = finish [concat chunks].
Proof.
  intros Hascii. rewrite !finish_wholeText. f_equal.
  rewrite decoded_concat.
  - unfold decoded. cbn [map concat]. rewrite app_nil_r. reflexivity.
  - apply Forall_removelast. apply Forall_concat in Hascii.
    revert Hascii. apply Forall_impl. intros chunk Hchunk.
    unfold Utf8.endsOnBoundary. rewrite run_ascii by exact Hchunk.
    reflexivity.
Qed.

End AsciiProperties.

Lemma X10_ascii_decodes_to_itself_witness :
  Utf8.toString (Sample.line "delta: Hi") =
    map Byte.to_N (Sample.line "delta: Hi")
  /\ Utf8.endsOnBoundary (Sample.line "delta: Hi") = true.
Proof.
  apply (X10_ascii_decodes_to_itself (bs := Sample.line "delta: Hi")).
  unfold ascii. repeat constructor; vm_compute; discriminate.
Defined.

Lemma X11_ascii_response_can_be_cut_anywhere_witness :
  @finish JSON.stringArrays
    [Sample.text "del"; Sample.text "ta: H"; Sample.line "i"]
  = @finish JSON.stringArrays
      [concat [Sample.text "del"; Sample.text "ta: H"; Sample.line "i"]].
Proof.
  apply (@X11_ascii_response_can_be_cut_anywhere JSON.stringArrays
           [Sample.text "del"; Sample.text "ta: H"; Sample.line "i"]).
  unfold ascii. repeat constructor; vm_compute; discriminate.
Defined.

(* ================================================================== *)
(** ** Responses, errors and requests *)
(* ================================================================== *)

Section ResponseHandling.
Variable T : Type.
Variable reasonOf : T -> option jsstring.

(** The class of the error thrown for a status other than 200. *)
Lemma handleResponse_throws (r : Client.AxiosResponse T) :
  Client.status r <> 200%N ->
  exists e,
    Client.handleResponse reasonOf r = Client.Throw e
    /\ Client.statusCode e = Some (Client.status r)
    /\ Client.response e = Some r
    /\ Client.name e =
       (if (Client.status r =? 401)%N
        then Client.InstaparserAuthenticationError
        else if (Client.status r =? 429)%N
        then Client.InstaparserRateLimitError
        else if (Client.status r =? 400)%N
        then Client.InstaparserValidationError
        else Client.InstaparserAPIError)
    /\ (reasonOf (Client.data r) <> Some [] ->
        Client.message e =
        match reasonOf (Client.data r) with
        | Some reason => reason
        | None => Client.requestFailed (Client.status r)
        end).
Proof.
  intros Hstatus. unfold Client.handleResponse.
  apply N.eqb_neq in Hstatus. rewrite Hstatus.
  assert (Hor : forall d,
             reasonOf (Client.data r) <> Some [] ->
             Client.orString
               match reasonOf (Client.data r) with
               | Some reason => reason
               | None => Client.requestFailed (Client.status r)
               end d =
             match reasonOf (Client.data r) with
             | Some reason => reason
             | None => Client.requestFailed (Client.status r)
             end).
  { intros d Hreason. destruct (reasonOf (Client.data r)) as [[|c m]|];
      [exfalso; apply Hreason; reflexivity|reflexivity|reflexivity]. }
  destruct (Client.status r =? 401)%N eqn:H401.
  { eexists. repeat split. cbn [Client.message]. apply Hor. }
  destruct (Client.status r =? 403)%N eqn:H403.
  { eexists. split; [reflexivity|]. cbn.
    apply N.eqb_eq in H403. rewrite H403. repeat split.
    intros Hreason. rewrite <- H403. apply Hor, Hreason. }
  destruct (Client.status r =? 409)%N eqn:H409.
  { eexists. split; [reflexivity|]. cbn.
    apply N.eqb_eq in H409. rewrite H409. repeat split.
    intros Hreason. rewrite <- H409. apply Hor, Hreason. }
  destruct (Client.status r =? 429)%N eqn:H429.
  { eexists. repeat split. cbn [Client.message]. apply Hor. }
  destruct (Client.status r =? 400)%N eqn:H400.
  { eexists. repeat split. cbn [Client.message]. apply Hor. }
  eexists. repeat split.
Qed.

(** X12.  [handleResponse] returns the data of the response for status
    200 and throws for every other status; the error thrown carries the
    status and the response, and is an authentication error for 401, a
    rate-limit error for 429, a validation error for 400 and a plain API
    error otherwise. *)
Theorem X12_handleResponse_returns_only_for_200 (r : Client.AxiosResponse T) :
  (Client.status r = 200%N
   /\ Client.handleResponse reasonOf r = Client.Return (Client.data r))
  \/ (Client.status r <> 200%N
      /\ exists e,
          Client.handleResponse reasonOf r = Client.Throw e
          /\ Client.statusCode e = Some (Client.status r)
          /\ Client.response e = Some r
          /\ Client.name e =
             (if (Client.status r =? 401)%N
              then Client.InstaparserAuthenticationError
              else if (Client.status r =? 429)%N
              then Client.InstaparserRateLimitError
              else if (Client.status r =? 400)%N
              then Client.InstaparserValidationError
              else Client.InstaparserAPIError)).
Proof.
  destruct (N.eq_dec (Client.status r) 200) as [H200|Hother].
  - left. split; [exact H200|]. unfold Client.handleResponse.
    rewrite H200. reflexivity.
  - right. split; [exact Hother|].
    destruct (handleResponse_throws r Hother) as (e & He & Hs & Hr & Hn & _).
    exists e. repeat split; assumption.
Qed.


End ResponseHandling.


(** X14.  When the streaming request fails, the error thrown is the
    error of axios itself if it carries no response (or one of status
    200); otherwise it is the client's error for the status of that
    response, always with the message [API request failed with status
    <status>], whatever the body of the response said. *)
Theorem X14_streaming_request_failure (S : Type) (error : Client.AxiosError S) :
  match Client.axiosResponse error with
  | None => Client.streamRequestFailed error = Client.Axios error
  | Some r =>
      if (Client.status r =? 200)%N
      then Client.streamRequestFailed error = Client.Axios error
      else
        exists e,
          Client.streamRequestFailed error = Client.Insta e
          /\ Client.message e = Client.requestFailed (Client.status r)
          /\ Client.statusCode e = Some (Client.status r)
          /\ Client.name e =
             (if (Client.status r =? 401)%N
              then Client.InstaparserAuthenticationError
              else if (Client.status r =? 429)%N
              then Client.InstaparserRateLimitError
              else if (Client.status r =? 400)%N
              then Client.InstaparserValidationError
              else Client.InstaparserAPIError)
  end.
Proof.
  unfold Client.streamRequestFailed.
  destruct (Client.axiosResponse error) as [r|]; [|reflexivity].
  destruct (Client.status r =? 200)%N eqn:H200.
  - unfold Client.handleResponse. cbn [Client.status]. rewrite H200.
    reflexivity.
  - apply N.eqb_neq in H200.
    destruct (@handleResponse_throws jsstring (fun _ => None)
                {| Client.status := Client.status r;
                   Client.data := Client.requestFailed (Client.status r) |}
                H200) as (e & He & Hs & _ & Hn & Hm).
    rewrite He. exists e. cbn [Client.status Client.data] in *.
    repeat split; [|exact Hs|exact Hn]. apply Hm. discriminate.
Qed.

(* ================================================================== *)
(** ** [article] and [pdf] *)
(* ================================================================== *)

Section MethodProperties.
Variable number : Type.
Variable zero : number.
Variable reasonOf : ArticleData.ArticleData number -> option jsstring.
Variable http :
  Client.request ->
  Client.result (Client.AxiosResponse (ArticleData.ArticleData number))
                (Client.AxiosError (ArticleData.ArticleData number)).

(** A value is returned only through a response of status 200. *)
Lemma send_returns (A : Type)
  (construct : ArticleData.ArticleData number -> A)
  (built : Client.result Client.request
             (Client.error (ArticleData.ArticleData number)))
  (a : A) :
  Client.send reasonOf http construct built = Client.Return a ->
  exists req r,
    built = Client.Return req
    /\ http req = Client.Return r
    /\ Client.status r = 200%N
    /\ a = construct (Client.data r).
Proof.
  unfold Client.send. destruct built as [req|e]; [|discriminate].
  destruct (http req) as [r|e] eqn:Hhttp; [|discriminate].
  unfold Client.handleResponse.
  destruct (Client.status r =? 200)%N eqn:H200.
  - intros Hret. injection Hret as <-. exists req, r.
    apply N.eqb_eq in H200. repeat split; assumption.
  - repeat match goal with
           | |- context [if ?b then _ else _] => destruct b
           end; discriminate.
Qed.

(** X15.  Whatever [pdf] refuses before sending anything is refused
    with a validation error that has no status code and no response, and
    [pdf] throws that error whatever the transport would answer. *)
Theorem X15_pdf_refusals_are_validation_errors
  (options : Client.PDFOptions.PDFOptions)
  (e : Client.error (ArticleData.ArticleData number)) :
  @Client.pdfRequest number options = Client.Throw e ->
  Client.name e = Client.InstaparserValidationError
  /\ Client.statusCode e = None
  /\ Client.response e = None
  /\ Client.pdf zero reasonOf http options = Client.Throw (Client.Insta e).
Proof.
  intros Hthrow. unfold Client.pdf, Client.send. rewrite Hthrow.
  unfold Client.pdfRequest in Hthrow.
  repeat match type of Hthrow with
         | (if ?b then _ else _) = _ => destruct b
         | match ?x with _ => _ end = _ => destruct x
         end;
    try discriminate; injection Hthrow as <-; repeat split.
Qed.

(** X16.  [pdf] refuses its options exactly when [output] is neither
    ['html'] nor ['text'], or the file is a path string or something
    other than a Buffer or a Readable, or no file is given and the url is
    missing or empty.  A file that is a Buffer or a Readable is uploaded
    even when the url is missing. *)
Theorem X16_pdf_refuses_exactly_the_unusable_options
  (options : Client.PDFOptions.PDFOptions) :
  (exists e : Client.error (ArticleData.ArticleData number),
      @Client.pdfRequest number options = Client.Throw e)
  <->
  (Client.badOutput
     (nullish (Client.PDFOptions.output options) (lit "html")) = true
   \/ (exists path,
          Client.PDFOptions.file options = Some (Client.IsString path))
   \/ Client.PDFOptions.file options = Some Client.IsOther
   \/ (Client.PDFOptions.file options = None
       /\ orEmpty (Client.PDFOptions.url options) = [])).
Proof.
  unfold Client.pdfRequest.
  destruct (Client.badOutput _) eqn:Hout.
  { split; [intros _; left; reflexivity|intros _; eexists; reflexivity]. }
  destruct (Client.PDFOptions.file options) as [[b|chunks|path|]|].
  - split; [intros [e He]; discriminate He|].
    intros [H|[[p H]|[H|[H _]]]]; discriminate H.
  - split; [intros [e He]; discriminate He|].
    intros [H|[[p H]|[H|[H _]]]]; discriminate H.
  - split; [intros _|intros _; eexists; reflexivity].
    right. left. exists path. reflexivity.
  - split; [intros _|intros _; eexists; reflexivity].
    right. right. left. reflexivity.
  - destruct (Client.PDFOptions.url options) as [[|c url]|]; cbn.
    + split; [intros _|intros _; eexists; reflexivity].
      right. right. right. split; reflexivity.
    + split; [intros [e He]; discriminate He|].
      intros [H|[[p H]|[H|[_ H]]]]; discriminate H.
    + split; [intros _|intros _; eexists; reflexivity].
      right. right. right. split; reflexivity.
Qed.

(** X17.  A PDF returned by [pdf] comes from a response of status 200
    to the request built from the options, is [new PDF] of the data of
    that response, and so has [isRtl] false and [videos] empty whatever
    the server sent. *)
Theorem X17_pdf_result_comes_from_a_200_response
  (options : Client.PDFOptions.PDFOptions) (p : Article.Article number) :
  Client.pdf zero reasonOf http options = Client.Return p ->
  Article.isRtl p = false
  /\ Article.videos p = []
  /\ exists req r,
      @Client.pdfRequest number options = Client.Return req
      /\ http req = Client.Return r
      /\ Client.status r = 200%N
      /\ p = Article.PDF zero (Client.data r).
Proof.
  intros Hret. apply send_returns in Hret.
  destruct Hret as (req & r & Hreq & Hhttp & H200 & ->).
  repeat split. exists req, r. repeat split; assumption.
Qed.

(** X18.  An Article returned by [article] comes from a response of
    status 200 to a POST of [/api/1/article] whose payload starts with
    the url and an [output] of ['html'] or ['text'] (['html'] when none
    is asked for), and is [new Article] of the data of that response. *)
Theorem X18_article_result_comes_from_a_200_response
  (options : Client.ArticleOptions.ArticleOptions)
  (a : Article.Article number) :
  Client.article zero reasonOf http options = Client.Return a ->
  exists output rest r,
    (output = lit "html" \/ output = lit "text")
    /\ output = nullish (Client.ArticleOptions.output options) (lit "html")
    /\ http (Client.PostJson (lit "/api/1/article")
               ((lit "url", Client.ArticleOptions.url options)
                  :: (lit "output", output) :: rest)) = Client.Return r
    /\ Client.status r = 200%N
    /\ a = Article.new zero (Client.data r).
Proof.
  intros Hret. apply send_returns in Hret.
  destruct Hret as (req & r & Hreq & Hhttp & H200 & ->).
  unfold Client.articleRequest in Hreq.
  destruct (Client.badOutput _) eqn:Hout; [discriminate|].
  injection Hreq as <-.
  eexists _, _, r. split; [|split; [reflexivity|split; [exact Hhttp|]]].
  - unfold Client.badOutput, Client.strictEq in Hout.
    destruct (list_eq_dec N.eq_dec _ (lit "html")) as [->|_];
      [left; reflexivity|].
    destruct (list_eq_dec N.eq_dec _ (lit "text")) as [->|_];
      [right; reflexivity|discriminate].
  - split; [exact H200|reflexivity].
Qed.

(** X19.  The text of an article, [toString()], is its html when that is
    not empty, otherwise its text, otherwise the empty string; a PDF
    built from the same data has the same text. *)
Theorem X19_toString_prefers_html (data : ArticleData.ArticleData number) :
  Article.toString (Article.new zero data) =
    (if truthy (nullish (ArticleData.html data) [])
     then nullish (ArticleData.html data) []
     else nullish (ArticleData.text data) [])
  /\ Article.toString (Article.PDF zero data) =
     Article.toString (Article.new zero data).
Proof.
  split; [|reflexivity].
  unfold Article.toString, Article.new, orElse. cbn [Article.body].
  destruct (ArticleData.html data) as [[|c h]|];
    destruct (ArticleData.text data) as [[|d t]|]; reflexivity.
Qed.

End MethodProperties.

Lemma X15_pdf_refusals_are_validation_errors_witness :
  Client.name
    (Client.validationError (ArticleData.ArticleData N)
       (lit "File path strings are not supported. Please provide a Buffer or Readable stream."))
  = Client.InstaparserValidationError
  /\ Client.statusCode
       (Client.validationError (ArticleData.ArticleData N)
          (lit "File path strings are not supported. Please provide a Buffer or Readable stream."))
     = None
  /\ Client.response
       (Client.validationError (ArticleData.ArticleData N)
          (lit "File path strings are not supported. Please provide a Buffer or Readable stream."))
     = None
  /\ Client.pdf 0%N Sample.noReason Sample.server Sample.pdfPath
     = Client.Throw
         (Client.Insta
            (Client.validationError (ArticleData.ArticleData N)
               (lit "File path strings are not supported. Please provide a Buffer or Readable stream."))).
Proof.
  apply (@X15_pdf_refusals_are_validation_errors N 0%N Sample.noReason
           Sample.server Sample.pdfPath).
  vm_compute. reflexivity.
Defined.

Lemma X17_pdf_result_comes_from_a_200_response_witness :
  Article.isRtl (Article.PDF 0%N Sample.rtlData) = false
  /\ Article.videos (Article.PDF 0%N Sample.rtlData) = []
  /\ exists req r,
      @Client.pdfRequest N Sample.pdfUrl = Client.Return req
      /\ Sample.server req = Client.Return r
      /\ Client.status r = 200%N
      /\ Article.PDF 0%N Sample.rtlData = Article.PDF 0%N (Client.data r).
Proof.
  apply (@X17_pdf_result_comes_from_a_200_response N 0%N Sample.noReason
           Sample.server Sample.pdfUrl (Article.PDF 0%N Sample.rtlData)).
  vm_compute. reflexivity.
Defined.

Lemma X18_article_result_comes_from_a_200_response_witness :
  exists output rest r,
    (output = lit "html" \/ output = lit "text")
    /\ output =
       nullish (Client.ArticleOptions.output Sample.articleText) (lit "html")
    /\ Sample.server
         (Client.PostJson (lit "/api/1/article")
            ((lit "url", Client.ArticleOptions.url Sample.articleText)
               :: (lit "output", output) :: rest)) = Client.Return r
    /\ Client.status r = 200%N
    /\ Article.new 0%N Sample.rtlData = Article.new 0%N (Client.data r).
Proof.
  apply (@X18_article_result_comes_from_a_200_response N 0%N Sample.noReason
           Sample.server Sample.articleText (Article.new 0%N Sample.rtlData)).
  vm_compute. reflexivity.
Defined.

(** X20.  The overview shown by the inspection of a Summary is at most
    53 code units long and starts with the first 50 code units of the
    overview. *)
Theorem X20_overview_preview_is_bounded (s : Summary) :
  List.length (Summary.overviewPreview s) <= 53
  /\ firstn 50 (Summary.overviewPreview s) = firstn 50 (Summary.overview s).
Proof.
  unfold Summary.overviewPreview.
  destruct (Nat.ltb 50 (List.length (Summary.overview s))) eqn:Hlong.
  - apply Nat.ltb_lt in Hlong. split.
    + rewrite length_app, length_firstn.
      change (List.length (lit "...")) with 3. lia.
    + rewrite firstn_app, firstn_firstn, length_firstn.
      replace (50 - Nat.min 50 (List.length (Summary.overview s))) with 0
        by lia.
      cbn [firstn Nat.min]. rewrite app_nil_r. reflexivity.
  - apply Nat.ltb_ge in Hlong. split; [lia|reflexivity].
Qed.
